(** * Elering day-ahead price exporter

    A shallow embedding of [scripts/elering_price_exporter.py] and
    [scripts/utils/influxdb.py], and the properties of the
    fetch -> transform -> export pipeline proved about it.

    The Python code is embedded as follows.
    - A [dict] is an association list in insertion order with unique keys;
      [d[k] = v] is [dict_set].
    - Code that may raise returns a [result]; an uncaught exception ends
      the process with a non-zero exit status.
    - Logging, file writes and the InfluxDB request are recorded as a trace
      of [event]s; what the file system and the database answer is an
      argument of the model, and so is the response fetched over HTTP.
    - Region codes are ASCII strings, prices are binary64 floats, epoch
      seconds are integers.
    - The pandas calls of [convert_to_dataframe] are modelled one by one in
      module [Pandas], after pandas 2.x. *)

From Stdlib Require Import ZArith List String Ascii Bool Lia Floats.
From Stdlib Require Import Permutation.
Import ListNotations.

Set Warnings "-inexact-float".

Local Open Scope string_scope.
Local Open Scope Z_scope.

(* ================================================================== *)
(** * Python: exceptions, results, effects, dicts, strings *)

Module Py.

(** An exception instance: the name of its class, the names of the classes
    it derives from, and the [status] attribute (of [ApiException]). *)
Record exn : Type := mkExn {
  exn_class : string;
  exn_bases : list string;
  exn_status : option Z
}.

(** [isinstance(e, cls)]: the class itself or one of its bases. *)
Definition isinstance (e : exn) (cls : string) : bool :=
  String.eqb (exn_class e) cls || existsb (String.eqb cls) (exn_bases e).

Definition KeyError : exn :=
  mkExn "KeyError" ["LookupError"; "Exception"] None.
Definition ValueError : exn :=
  mkExn "ValueError" ["Exception"] None.
Definition TypeError : exn :=
  mkExn "TypeError" ["Exception"] None.
Definition RuntimeError : exn :=
  mkExn "RuntimeError" ["Exception"] None.
(** [pandas.errors.OutOfBoundsDatetime] derives from [ValueError]. *)
Definition OutOfBoundsDatetime : exn :=
  mkExn "OutOfBoundsDatetime" ["ValueError"; "Exception"] None.
(** [influxdb_client.rest.ApiException] carries the HTTP status. *)
Definition ApiException (status : Z) : exn :=
  mkExn "ApiException" ["OpenApiException"; "Exception"] (Some status).
(** [urllib3.exceptions.ReadTimeoutError], a network timeout. *)
Definition ReadTimeoutError : exn :=
  mkExn "ReadTimeoutError"
        ["TimeoutError"; "RequestError"; "PoolError"; "HTTPError"; "Exception"]
        None.

Inductive result (A : Type) : Type :=
| Return (a : A)
| Raise (e : exn).
Arguments Return {A} a.
Arguments Raise {A} e.

Definition bind {A B : Type} (r : result A) (k : A -> result B) : result B :=
  match r with
  | Return a => k a
  | Raise e => Raise e
  end.

(** [for x in xs: ys.append(f(x))], stopping at the first exception. *)
Fixpoint mapM {A B : Type} (f : A -> result B) (xs : list A)
  : result (list B) :=
  match xs with
  | [] => Return []
  | x :: xs' =>
      bind (f x) (fun y => bind (mapM f xs') (fun ys => Return (y :: ys)))
  end.

(** Exit status of the interpreter: 0 on normal termination, 1 when an
    exception reaches the top level. *)
Definition exit_status {A : Type} (r : result A) : Z :=
  match r with
  | Return _ => 0
  | Raise _ => 1
  end.

(** ** dict *)

Definition dict (V : Type) : Type := list (string * V).

(** [d[k] = v]: an existing key keeps its position and takes the new value,
    a new key goes last. *)
Fixpoint dict_set {V : Type} (k : string) (v : V) (d : dict V) : dict V :=
  match d with
  | [] => [(k, v)]
  | (k', v') :: d' =>
      if String.eqb k k' then (k', v) :: d' else (k', v') :: dict_set k v d'
  end.

Fixpoint dict_get {V : Type} (k : string) (d : dict V) : option V :=
  match d with
  | [] => None
  | (k', v') :: d' => if String.eqb k k' then Some v' else dict_get k d'
  end.

Definition keys {V : Type} (d : dict V) : list string := map fst d.

(** ** str *)

Definition is_lower (c : ascii) : bool :=
  let n := N_of_ascii c in (97 <=? n)%N && (n <=? 122)%N.

Definition is_upper (c : ascii) : bool :=
  let n := N_of_ascii c in (65 <=? n)%N && (n <=? 90)%N.

Definition upper_char (c : ascii) : ascii :=
  if is_lower c then ascii_of_N (N_of_ascii c - 32) else c.

Definition lower_char (c : ascii) : ascii :=
  if is_upper c then ascii_of_N (N_of_ascii c + 32) else c.

(** [s.upper()] and [s.lower()], character by character on the bytes of
    the text: exact on ASCII text, where Python changes the letters a to z
    and A to Z only. Python also maps the case of other letters, which the
    model leaves as they are; statements about the case of a text ask for
    ASCII text. *)
Fixpoint upper (s : string) : string :=
  match s with
  | EmptyString => EmptyString
  | String c s' => String (upper_char c) (upper s')
  end.

Fixpoint lower (s : string) : string :=
  match s with
  | EmptyString => EmptyString
  | String c s' => String (lower_char c) (lower s')
  end.

(** [s.rfind(c)]: the index of the last occurrence of [c], or -1. *)
Fixpoint rfind_from (c : ascii) (s : string) (i last : Z) : Z :=
  match s with
  | EmptyString => last
  | String a s' => rfind_from c s' (i + 1) (if Ascii.eqb a c then i else last)
  end.

Definition rfind (c : ascii) (s : string) : Z := rfind_from c s 0 (-1).

(** The loop of [genericpath._splitext] that skips the leading dots of the
    file name: [true] when one of the [n] characters from [filenameIndex]
    on is not a dot, in which case the extension is split off. *)
Fixpoint has_name_before_dot (p : string) (filenameIndex : nat) (n : nat)
  : bool :=
  match n with
  | O => false
  | S n' =>
      match String.get filenameIndex p with
      | Some c =>
          if Ascii.eqb c "." then has_name_before_dot p (S filenameIndex) n'
          else true
      | None => true
      end
  end.

(** [os.path.splitext(p)] of [posixpath]. *)
Definition splitext (p : string) : string * string :=
  let sepIndex := rfind "/" p in
  let dotIndex := rfind "." p in
  if (sepIndex <? dotIndex)
     && has_name_before_dot p (Z.to_nat (sepIndex + 1))
                            (Z.to_nat (dotIndex - (sepIndex + 1)))
  then (String.substring 0 (Z.to_nat dotIndex) p,
        String.substring (Z.to_nat dotIndex)
                         (String.length p - Z.to_nat dotIndex) p)
  else (p, "").

End Py.

Import Py.

(* ================================================================== *)
(** * Data model of the price API and of the transformed table *)

(** One entry of a region's list: [{"timestamp": ..., "price": ...}]. *)
Record PricePoint : Type := mkPricePoint {
  timestamp : Z;      (* epoch seconds *)
  price : float
}.

(** The JSON body of the price API. *)
Record PriceResponse : Type := mkPriceResponse {
  success : bool;
  data : dict (list PricePoint)
}.

(** A UTC instant as pandas stores it: nanoseconds since the epoch. *)
Record Timestamp : Type := mkTimestamp { ns : Z }.

(** One row of the long table: index [time], columns [area] and [value];
    [None] is the missing value. pandas has a single missing value, NaN,
    so that a cell holding a NaN price and a cell holding nothing are the
    same to it; the model keeps [Some nan] apart from [None], and the
    statements that read the values of the rows ask for prices that are
    numbers. *)
Record PriceRow : Type := mkPriceRow {
  time : Timestamp;
  area : string;
  value : option float
}.

(** ** Calendar reading of an instant *)

Record Civil : Type := mkCivil {
  year : Z; month : Z; day : Z; hour : Z; minute : Z; second : Z;
  nanosecond : Z
}.

Definition days_from_civil (y m d : Z) : Z :=
  let y' := if m <=? 2 then y - 1 else y in
  let era := y' / 400 in
  let yoe := y' - era * 400 in
  let mp := if 2 <? m then m - 3 else m + 9 in
  let doy := (153 * mp + 2) / 5 + d - 1 in
  let doe := yoe * 365 + yoe / 4 - yoe / 100 + doy in
  era * 146097 + doe - 719468.

Definition civil_from_days (z : Z) : Z * Z * Z :=
  let z' := z + 719468 in
  let era := z' / 146097 in
  let doe := z' - era * 146097 in
  let yoe := (doe - doe / 1460 + doe / 36524 - doe / 146096) / 365 in
  let doy := doe - (365 * yoe + yoe / 4 - yoe / 100) in
  let mp := (5 * doy + 2) / 153 in
  let d := doy - (153 * mp + 2) / 5 + 1 in
  let m := if mp <? 10 then mp + 3 else mp - 9 in
  let y := yoe + era * 400 in
  (if m <=? 2 then y + 1 else y, m, d).

(** The fields of a UTC instant, as its ISO-8601 text shows them. *)
Definition civil_of_timestamp (t : Timestamp) : Civil :=
  let secs := ns t / 1000000000 in
  let days := secs / 86400 in
  let sod := secs mod 86400 in
  let '(y, m, d) := civil_from_days days in
  mkCivil y m d (sod / 3600) (sod mod 3600 / 60) (sod mod 60)
          (ns t mod 1000000000).

(** The instant written [y-m-dTh:mi:sZ]. *)
Definition utc (y m d h mi s : Z) : Timestamp :=
  mkTimestamp
    ((days_from_civil y m d * 86400 + h * 3600 + mi * 60 + s) * 1000000000).

(* ================================================================== *)
(** * pandas (2.x): the calls made by [convert_to_dataframe] *)

Module Pandas.

(** A [Series] of prices: labels and values, in order; labels may repeat. *)
Definition Series : Type := list (Z * float).

Definition series_index (s : Series) : list Z := map fst s.

(** A wide frame: the row labels and, per column, one cell per row. *)
Record Frame (I : Type) : Type := mkFrame {
  index : list I;
  columns : list (string * list (option float))
}.
Arguments mkFrame {I} index columns.
Arguments index {I} f.
Arguments columns {I} f.

(** [pd.DataFrame(prices).set_index("timestamp")["price"]].
    A frame built from an empty list has no columns, so [set_index] raises
    [KeyError]; otherwise the rows are kept as they are, repeated
    timestamps included ([verify_integrity] is off). *)
Definition price_series (prices : list PricePoint) : result Series :=
  match prices with
  | [] => Raise KeyError
  | _ :: _ => Return (map (fun p => (timestamp p, price p)) prices)
  end.

Definition mem (t : Z) (l : list Z) : bool := existsb (Z.eqb t) l.

(** [Index.unique()]: first occurrences, in order of appearance. *)
Fixpoint unique (l : list Z) : list Z :=
  match l with
  | [] => []
  | x :: l' => x :: filter (fun y => negb (y =? x)) (unique l')
  end.

(** [Index.is_unique]. *)
Fixpoint is_unique (l : list Z) : bool :=
  match l with
  | [] => true
  | x :: l' => negb (mem x l') && is_unique l'
  end.

(** [Index.equals]. *)
Fixpoint index_equals (a b : list Z) : bool :=
  match a, b with
  | [], [] => true
  | x :: a', y :: b' => (x =? y) && index_equals a' b'
  | _, _ => false
  end.

(** [Index.sort_values()], ascending. *)
Fixpoint insert_sorted (x : Z) (l : list Z) : list Z :=
  match l with
  | [] => [x]
  | y :: l' => if x <=? y then x :: y :: l' else y :: insert_sorted x l'
  end.

Definition sort_values (l : list Z) : list Z :=
  fold_right insert_sorted [] l.

(** [union_indexes(indexes)] for the indexes of the Series of a dict:
    a single index, or indexes that are all equal, are taken as they are;
    otherwise the distinct labels of all indexes, sorted. *)
Definition union_indexes (indexes : list (list Z)) : list Z :=
  match indexes with
  | [] => []
  | [i0] => i0
  | i0 :: others =>
      if forallb (index_equals i0) others then i0
      else
        let uniq := unique i0 in
        let other := List.concat others in
        let diff := filter (fun t => negb (mem t uniq)) other in
        sort_values ((uniq ++ unique diff)%list)
  end.

(** The value at label [t] of a Series with unique labels. *)
Fixpoint series_get (t : Z) (s : Series) : option float :=
  match s with
  | [] => None
  | (t', v) :: s' => if t =? t' then Some v else series_get t s'
  end.

(** [Series.reindex(index)]: nothing to do when the Series already has
    this index; a Series with repeated labels cannot be aligned
    ([ValueError]: cannot reindex on an axis with duplicate labels);
    otherwise each label takes the Series' value, or NaN. *)
Definition reindex (s : Series) (idx : list Z)
  : result (list (option float)) :=
  if index_equals (series_index s) idx
  then Return (map (fun kv => Some (snd kv)) s)
  else if is_unique (series_index s)
  then Return (map (fun t => series_get t s) idx)
  else Raise ValueError.

(** [pd.DataFrame(df_dict)] for a dict of Series: an empty dict gives the
    empty frame; otherwise the index is the union of the indexes and each
    Series is aligned on it, in the order of the dict. *)
Definition DataFrame (df_dict : dict Series) : result (Frame Z) :=
  match df_dict with
  | [] => Return (mkFrame [] [])
  | _ :: _ =>
      let idx := union_indexes (map (fun kv => series_index (snd kv)) df_dict) in
      bind (mapM (fun kv => bind (reindex (snd kv) idx)
                                 (fun col => Return (fst kv, col)))
                 df_dict)
           (fun cols => Return (mkFrame idx cols))
  end.

(** Epoch seconds that fit pandas' nanosecond instants (int64). *)
Definition in_bounds (t : Z) : bool :=
  (-9223372036 <=? t) && (t <=? 9223372036).

(** [pd.to_datetime(index, unit="s", utc=True)]: each label becomes a UTC
    instant; a label out of range raises [OutOfBoundsDatetime]. The labels
    are read as signed 64-bit epoch seconds: an index with a label beyond
    that has another dtype in pandas, whose conversion wraps around, and is
    outside the model; statements about the instants of the rows ask for
    labels [in_bounds]. *)
Definition to_datetime_s (t : Z) : result Timestamp :=
  if in_bounds t then Return (mkTimestamp (t * 1000000000))
  else Raise OutOfBoundsDatetime.

Definition to_datetime (idx : list Z) : result (list Timestamp) :=
  mapM to_datetime_s idx.

(** [df.reset_index()] on a frame whose index is named [name]: the index
    becomes the first column, which must not exist yet
    ([ValueError]: cannot insert ..., already exists). *)
Definition reset_index {I : Type} (name : string) (df : Frame I)
  : result (Frame I) :=
  if existsb (String.eqb name) (map fst (columns df))
  then Raise ValueError
  else Return df.

(** The long rows of one column. *)
Fixpoint melt_column (times : list Timestamp) (name : string)
         (cells : list (option float)) : list PriceRow :=
  match times, cells with
  | t :: times', v :: cells' =>
      mkPriceRow t name v :: melt_column times' name cells'
  | _, _ => []
  end.

(** [df.melt(id_vars=["time"], var_name="area", value_name=value_name)]:
    [value_name] must not be one of the columns ([ValueError]); the rows
    go column by column, each column from the first label to the last. *)
Definition melt (value_name : string) (df : Frame Timestamp)
  : result (list PriceRow) :=
  if existsb (String.eqb value_name) (map fst (columns df))
  then Raise ValueError
  else Return (flat_map (fun c => melt_column (index df) (fst c) (snd c))
                        (columns df)).

End Pandas.

(* ================================================================== *)
(** * Effects: logging, file writes, the database request *)

Inductive level : Type := DEBUG | INFO | WARNING | ERROR | CRITICAL.

Inductive file_format : Type := Parquet | Csv | Excel.

(** The request sent by [write_api.write]; [req_record] holds the rows sent
    as points. *)
Record InfluxRequest : Type := mkInfluxRequest {
  req_url : string;
  req_token : string;
  req_org : string;
  req_bucket : string;
  req_record : list PriceRow;
  req_measurement : string;
  req_tag_columns : list string;
  req_field_columns : list string
}.

Inductive event : Type :=
| Log (l : level) (msg : string)
| FileWritten (fmt : file_format) (filename : string) (rows : list PriceRow)
| NetworkCall (req : InfluxRequest).

(** A computation with effects: the events it caused, in order, and how it
    ended. *)
Definition M (A : Type) : Type := list event * result A.

Definition ret {A : Type} (a : A) : M A := ([], Return a).

Definition lift {A : Type} (r : result A) : M A := ([], r).

Definition bindM {A B : Type} (m : M A) (k : A -> M B) : M B :=
  match m with
  | (tr, Return a) => let (tr', r) := k a in ((tr ++ tr')%list, r)
  | (tr, Raise e) => (tr, Raise e)
  end.

Definition log (l : level) (msg : string) : M unit := ([Log l msg], Return tt).

Notation "x <- e ;; k" := (bind e (fun x => k))
  (at level 61, e at next level, right associativity).
Notation "x <~ e ;; k" := (bindM e (fun x => k))
  (at level 61, e at next level, right associativity).

(** [for x in xs: body(x)], stopping at the first exception. *)
Fixpoint for_each {A : Type} (body : A -> M unit) (xs : list A) : M unit :=
  match xs with
  | [] => ret tt
  | x :: xs' => _ <~ body x ;; for_each body xs'
  end.

Definition trace {A : Type} (m : M A) : list event := fst m.
Definition outcome {A : Type} (m : M A) : result A := snd m.

(** The files written by a run, in order. *)
Fixpoint files_written (tr : list event) : list string :=
  match tr with
  | [] => []
  | FileWritten _ filename _ :: tr' => filename :: files_written tr'
  | _ :: tr' => files_written tr'
  end.

(** The log records of a given level. *)
Fixpoint logged (l : level) (tr : list event) : list string :=
  match tr with
  | [] => []
  | Log l' msg :: tr' =>
      match l, l' with
      | DEBUG, DEBUG | INFO, INFO | WARNING, WARNING
      | ERROR, ERROR | CRITICAL, CRITICAL => msg :: logged l tr'
      | _, _ => logged l tr'
      end
  | _ :: tr' => logged l tr'
  end.

(** The database requests of a run. *)
Fixpoint network_calls (tr : list event) : list InfluxRequest :=
  match tr with
  | [] => []
  | NetworkCall req :: tr' => req :: network_calls tr'
  | _ :: tr' => network_calls tr'
  end.

(* ================================================================== *)
(** * scripts/utils/influxdb.py *)

Module Influxdb.

(** The four connection parameters, as given by flags or by environment
    variables; [None] when absent. *)
Record Params : Type := mkParams {
  influxdb_url : option string;
  influxdb_token : option string;
  influxdb_org : option string;
  influxdb_bucket : option string
}.

Definition no_params : Params := mkParams None None None None.

(** A row that the DataFrame serializer of the client turns into a point:
    its field [value] holds a number. A row whose value is missing or NaN
    has no field and gives no line. *)
Definition has_field (r : PriceRow) : bool :=
  match value r with
  | Some v => negb (PrimFloat.is_nan v)
  | None => false
  end.

(** The points of a table, as sent. *)
Definition points (record : list PriceRow) : list PriceRow :=
  filter has_field record.

Section Influxdb.

(** The [--influxdb-*] flags of the command line, the [INFLUXDB_*]
    environment variables, and the answer of the database to a request
    ([None]: accepted, [Some e]: the client raises [e]). *)
Variable argv : Params.
Variable environ : Params.
Variable server : InfluxRequest -> option exn.

(** argparse with [default=os.getenv(...)]: the flag, else the variable. *)
Definition parse_known_args : Params :=
  let pick (flag env : option string) :=
    match flag with Some v => Some v | None => env end in
  mkParams (pick (influxdb_url argv) (influxdb_url environ))
           (pick (influxdb_token argv) (influxdb_token environ))
           (pick (influxdb_org argv) (influxdb_org environ))
           (pick (influxdb_bucket argv) (influxdb_bucket environ)).

(** [vars(args)]. *)
Definition vars (args : Params) : dict (option string) :=
  [("influxdb_url", influxdb_url args);
   ("influxdb_token", influxdb_token args);
   ("influxdb_org", influxdb_org args);
   ("influxdb_bucket", influxdb_bucket args)].

(** The loop that checks the mandatory variables. *)
Fixpoint check_mandatory (args_dict : dict (option string))
         (names : list string) : result unit :=
  match names with
  | [] => Return tt
  | arg :: names' =>
      match dict_get (lower arg) args_dict with
      | None => Raise KeyError
      | Some None => Raise RuntimeError
      | Some (Some _) => check_mandatory args_dict names'
      end
  end.

(** [get_influxdb_args]. After the check the four values are present; the
    last case of the [match] is never reached. *)
Definition get_influxdb_args : M (string * string * string * string) :=
  let args := parse_known_args in
  let args_dict := vars args in
  _ <~ lift (check_mandatory args_dict
               ["INFLUXDB_URL"; "INFLUXDB_TOKEN"; "INFLUXDB_ORG";
                "INFLUXDB_BUCKET"]) ;;
  match influxdb_url args, influxdb_token args,
        influxdb_org args, influxdb_bucket args with
  | Some url, Some token, Some org, Some bucket =>
      _ <~ log INFO "Got InfluxDB parameters" ;;
      ret (url, token, org, bucket)
  | _, _, _, _ => lift (Raise TypeError)
  end.

(** The client object: it holds the connection parameters and sends
    nothing by itself. *)
Record InfluxDBClient : Type := mkInfluxDBClient {
  client_url : string;
  client_token : string;
  client_org : string
}.

Definition create_influxdb_client (url token org : string) : InfluxDBClient :=
  mkInfluxDBClient url token org.

(** [write_api.write(...)]: the one network call. The rows that hold a
    number are serialized, one point each; when there is none (an empty
    table, or one whose values are all missing) the client has nothing to
    send and returns without a request. *)
Definition write_api_write (client : InfluxDBClient) (bucket : string)
           (record : list PriceRow) (data_frame_measurement_name : string)
           (data_frame_tag_columns data_frame_field_columns : list string)
  : M unit :=
  match points record with
  | [] => ret tt
  | p :: ps =>
      let req := mkInfluxRequest (client_url client) (client_token client)
                                 (client_org client) bucket (p :: ps)
                                 data_frame_measurement_name
                                 data_frame_tag_columns
                                 data_frame_field_columns in
      match server req with
      | None => ([NetworkCall req], Return tt)
      | Some e => ([NetworkCall req], Raise e)
      end
  end.

(** The [try] block of [write_dataframe_to_influxdb]. *)
Definition write_dataframe_body (df : list PriceRow)
           (measurement_name : string) (tag_columns field_columns : list string)
  : M bool :=
  conn <~ get_influxdb_args ;;
  let '(url, token, org, bucket) := conn in
  let client := create_influxdb_client url token org in
  _ <~ log INFO "Write DataFrame" ;;
  _ <~ log DEBUG "df" ;;
  _ <~ write_api_write client bucket df measurement_name
                       tag_columns field_columns ;;
  ret true.

(** The [except] clauses, in order. *)
Definition write_dataframe_to_influxdb (df : list PriceRow)
           (measurement_name : string) (tag_columns field_columns : list string)
  : M bool :=
  match write_dataframe_body df measurement_name tag_columns field_columns with
  | (tr, Return b) => (tr, Return b)
  | (tr, Raise e) =>
      if isinstance e "ApiException" then
        if match exn_status e with Some s => s =? 401 | None => false end
        then ((tr ++ [Log CRITICAL "Authentication error with InfluxDB"])%list,
              Return false)
        else ((tr ++ [Log CRITICAL "InfluxDB API error"])%list, Return false)
      else if isinstance e "ValueError" || isinstance e "TypeError"
              || isinstance e "RuntimeError"
      then ((tr ++ [Log ERROR "Error writing DataFrame to InfluxDB"])%list,
            Return false)
      else (tr, Raise e)
  end.

End Influxdb.

End Influxdb.

(* ================================================================== *)
(** * scripts/elering_price_exporter.py *)

Module Exporter.

(** The loop of [convert_to_dataframe] that fills [df_dict]. *)
Fixpoint fill_df_dict (items : list (string * list PricePoint))
         (df_dict : dict Pandas.Series) : result (dict Pandas.Series) :=
  match items with
  | [] => Return df_dict
  | (country, prices) :: items' =>
      s <- Pandas.price_series prices ;;
      fill_df_dict items' (dict_set country s df_dict)
  end.

Definition convert_to_dataframe (response : PriceResponse)
  : result (list PriceRow) :=
  df_dict <- fill_df_dict (data response) [] ;;
  df <- Pandas.DataFrame df_dict ;;
  times <- Pandas.to_datetime (Pandas.index df) ;;
  let df := Pandas.mkFrame times (Pandas.columns df) in
  df <- Pandas.reset_index "time" df ;;
  Pandas.melt "value" df.

Section Files.

(** What the writer of a format answers to the writing of a file ([None]:
    written, [Some e]: the writer raises [e]). The answer stands for the
    whole of [to_parquet], [to_csv] or [to_excel]: [to_excel] raises
    [ValueError] on a table that holds instants with a time zone, as the
    rows of this table do. A write that fails records no file, though the
    writer may leave one behind. *)
Variable fs : file_format -> string -> option exn.

Definition write_file (fmt : file_format) (df : list PriceRow)
           (filename : string) : M unit :=
  match fs fmt filename with
  | None => ([FileWritten fmt filename df], Return tt)
  | Some e => ([], Raise e)
  end.

Definition save_to_file (df : list PriceRow) (filename : string) : M unit :=
  let ext := lower (snd (splitext filename)) in
  if String.eqb ext ".parquet" then
    _ <~ write_file Parquet df filename ;;
    log INFO ("Data saved to Parquet file: " ++ filename)
  else if String.eqb ext ".csv" then
    _ <~ write_file Csv df filename ;;
    log INFO ("Data saved to CSV file: " ++ filename)
  else if String.eqb ext ".xlsx" then
    _ <~ write_file Excel df filename ;;
    log INFO ("Data saved to Excel file: " ++ filename)
  else
    log WARNING ("Unsupported file extension: " ++ ext
                 ++ ". Skipping file: " ++ filename).

End Files.

(** The dict comprehension [{k.upper(): v for k, v in data["data"].items()}]. *)
Definition upper_keys (d : dict (list PricePoint)) : dict (list PricePoint) :=
  fold_left (fun acc kv => dict_set (upper (fst kv)) (snd kv) acc) d [].

Definition normalize (response : PriceResponse) : PriceResponse :=
  mkPriceResponse (success response) (upper_keys (data response)).

(** The transform step of [main]: the region codes are put in upper case,
    then the response is converted. *)
Definition transform (response : PriceResponse) : result (list PriceRow) :=
  convert_to_dataframe (normalize response).

(** The parsed command line, as far as [main] reads it. *)
Record Args : Type := mkArgs {
  influxdb_measurement : string;
  output_filename : option (list string)
}.

(** [main], from the fetched response on. *)
Definition main (args : Args) (fetched : PriceResponse)
           (fs : file_format -> string -> option exn)
           (argv environ : Influxdb.Params)
           (server : InfluxRequest -> option exn) : M unit :=
  let data := normalize fetched in
  if success data then
    df <~ lift (convert_to_dataframe data) ;;
    _ <~ log INFO "df" ;;
    _ <~ match output_filename args with
         | Some (f :: fl) => for_each (save_to_file fs df) (f :: fl)
         | _ => ret tt
         end ;;
    _ <~ Influxdb.write_dataframe_to_influxdb argv environ server df
           (influxdb_measurement args) ["area"] ["value"] ;;
    ret tt
  else
    log ERROR "Failed to fetch data".

End Exporter.

Import Exporter.

(* ================================================================== *)
(** * datetime: the calls made by [parse_args] *)

Module Datetime.

(** A UTC [datetime] is given by its epoch seconds; the model is meant for
    clocks between 1970 and 9999, where [strftime] pads the year to four
    digits and the arithmetic of [parse_args] does not overflow. *)

(** [now.replace(hour=22, minute=0, second=0, microsecond=0)]. *)
Definition replace_22 (now : Z) : Z := now / 86400 * 86400 + 79200.

(** [timedelta(days=n)], in seconds. *)
Definition days (n : Z) : Z := n * 86400.

Definition digit (n : Z) : ascii := ascii_of_N (48 + Z.to_N (n mod 10)).

Definition pad2 (n : Z) : string :=
  String (digit (n / 10)) (String (digit n) EmptyString).

Definition pad4 (n : Z) : string :=
  String (digit (n / 1000))
    (String (digit (n / 100)) (String (digit (n / 10))
       (String (digit n) EmptyString))).

(** [t.strftime("%Y-%m-%dT%H:%M:%SZ")]. *)
Definition strftime (t : Z) : string :=
  let c := civil_of_timestamp (mkTimestamp (t * 1000000000)) in
  pad4 (year c) ++ "-" ++ pad2 (month c) ++ "-" ++ pad2 (day c) ++ "T"
  ++ pad2 (hour c) ++ ":" ++ pad2 (minute c) ++ ":" ++ pad2 (second c) ++ "Z".

(** [s.replace("Z", "+00:00")]. *)
Fixpoint replace_Z (s : string) : string :=
  match s with
  | EmptyString => EmptyString
  | String c s' =>
      if Ascii.eqb c "Z" then "+00:00" ++ replace_Z s'
      else String c (replace_Z s')
  end.

End Datetime.

(* ================================================================== *)
(** * scripts/elering_price_exporter.py: the command line *)

Module Cli.

Import Datetime.

(** What [parser.parse_known_args] hands to the rest of [parse_args]. The
    parser has by then refused, with exit status 2, a command line that
    gives more than one of [--start-time], [--tomorrow] and [--today]
    (a mutually exclusive group): a namespace with two of them set is no
    result of the parser. *)
Record Namespace : Type := mkNamespace {
  start_time : option string;
  tomorrow : bool;
  today : bool;
  end_time : option string;
  export_args : Args
}.

(** Python's [not s] for an optional text: absent or empty. *)
Definition falsy (s : option string) : bool :=
  match s with
  | None => true
  | Some EmptyString => true
  | Some (String _ _) => false
  end.

(** [None.replace] raises [AttributeError]. *)
Definition AttributeError : exn := mkExn "AttributeError" ["Exception"] None.

Section ParseArgs.

(** The clock ([datetime.now(timezone.utc)], epoch seconds) and the texts
    that [datetime.fromisoformat] accepts. *)
Variable now : Z.
Variable fromisoformat : string -> bool.

(** [parse_args], from the parsed command line on: the time window, then
    its validation. *)
Definition parse_args (args : Namespace) : result Namespace :=
  let t22 := replace_22 now in
  let args :=
    if tomorrow args then
      mkNamespace (Some (strftime t22)) (tomorrow args) (today args)
                  (Some (strftime (t22 + days 1))) (export_args args)
    else if today args then
      mkNamespace (Some (strftime (t22 - days 1))) (tomorrow args) (today args)
                  (Some (strftime t22)) (export_args args)
    else if falsy (start_time args) then
      mkNamespace (Some (strftime (t22 - days 3))) (tomorrow args) (today args)
                  (end_time args) (export_args args)
    else args in
  let args :=
    if falsy (end_time args) && negb (today args) && negb (tomorrow args) then
      mkNamespace (start_time args) (tomorrow args) (today args)
                  (Some (strftime (t22 + days 1))) (export_args args)
    else args in
  match start_time args, end_time args with
  | Some s, Some e =>
      if fromisoformat (replace_Z s) then
        if fromisoformat (replace_Z e) then Return args else Raise ValueError
      else Raise ValueError
  | _, _ => Raise AttributeError
  end.

End ParseArgs.

End Cli.


(* ================================================================== *)
(** * Vocabulary of the statements *)

(** A string without lower-case letters. *)
Fixpoint no_lowercase (s : string) : bool :=
  match s with
  | EmptyString => true
  | String c s' => negb (is_lower c) && no_lowercase s'
  end.

(** Two dicts that are equal except, at most, for the value stored under
    the first entry of key [K]. *)
Inductive differ_at {V : Type} (K : string) : dict V -> dict V -> Prop :=
| differ_here (v v' : V) (d : dict V) :
    differ_at K ((K, v) :: d) ((K, v') :: d)
| differ_there (k : string) (v : V) (d d' : dict V) :
    k <> K -> differ_at K d d' -> differ_at K ((k, v) :: d) ((k, v) :: d')
| differ_same (d : dict V) : differ_at K d d.

(** The Series of a region's list, when the list is not empty. *)
Definition series_of (prices : list PricePoint) : Pandas.Series :=
  map (fun p => (timestamp p, price p)) prices.

(** The instant of an epoch second. *)
Definition instant (t : Z) : Timestamp := mkTimestamp (t * 1000000000).

(** The row of a price point of region [country]. *)
Definition row_of (country : string) (p : PricePoint) : PriceRow :=
  mkPriceRow (instant (timestamp p)) country (Some (price p)).

(** The rows of a table that belong to a region. *)
Definition rows_of_area (country : string) (rows : list PriceRow)
  : list PriceRow :=
  filter (fun r => String.eqb (area r) country) rows.

(** The rows of a table for a (region, instant) pair. *)
Definition rows_at (country : string) (t : Timestamp) (rows : list PriceRow)
  : list PriceRow :=
  filter (fun r => String.eqb (area r) country && (ns (time r) =? ns t)) rows.

(** The timestamps of a region's list. *)
Definition timestamps (prices : list PricePoint) : list Z :=
  map timestamp prices.

(** The timestamps of all regions of a mapping. *)
Definition all_timestamps (d : dict (list PricePoint)) : list Z :=
  flat_map (fun kv => timestamps (snd kv)) d.

(** The file name has one of the three supported extensions. *)
Definition supported (filename : string) : bool :=
  let ext := lower (snd (splitext filename)) in
  String.eqb ext ".parquet" || String.eqb ext ".csv" || String.eqb ext ".xlsx".

(** The warning logged for a skipped file. *)
Definition skip_warning (filename : string) : string :=
  "Unsupported file extension: " ++ lower (snd (splitext filename))
  ++ ". Skipping file: " ++ filename.

(** One of the exception classes that [write_dataframe_to_influxdb]
    handles. *)
Definition handled (e : exn) : bool :=
  isinstance e "ApiException" || isinstance e "ValueError"
  || isinstance e "TypeError" || isinstance e "RuntimeError".

(** One of the four connection parameters is absent. *)
Definition missing (p : Influxdb.Params) : bool :=
  match Influxdb.influxdb_url p, Influxdb.influxdb_token p,
        Influxdb.influxdb_org p, Influxdb.influxdb_bucket p with
  | Some _, Some _, Some _, Some _ => false
  | _, _, _, _ => true
  end.

(** The union of the regions' timestamp sets. *)
Definition distinct_timestamps (d : dict (list PricePoint)) : list Z :=
  nodup Z.eq_dec (all_timestamps d).

(** The price a region has at a timestamp, if it has a point there. *)
Definition region_value (d : dict (list PricePoint)) (country : string) (t : Z)
  : option float :=
  match dict_get country d with
  | Some prices => Pandas.series_get t (series_of prices)
  | None => None
  end.

(** A region's list that the indexing and conversion steps accept as a
    column of its own: not empty, no repeated timestamp, every timestamp
    a representable instant. *)
Definition regular (prices : list PricePoint) : Prop :=
  prices <> []
  /\ NoDup (timestamps prices)
  /\ forall t, In t (timestamps prices) -> Pandas.in_bounds t = true.

(** The cells of a region's column over the row labels [idx]. *)
Definition aligned (idx : list Z) (c : string * Pandas.Series)
  : string * list (option float) :=
  (fst c, map (fun t => Pandas.series_get t (snd c)) idx).

(** The long table over the row labels [idx]: region by region, one row
    per label. *)
Definition long_table (idx : list Z) (d : dict (list PricePoint))
  : list PriceRow :=
  flat_map (fun kv =>
              map (fun t => mkPriceRow (instant t) (fst kv)
                                       (Pandas.series_get t (series_of (snd kv))))
                  idx)
           d.

Arguments supported : simpl never.
Arguments instant : simpl never.

(** The format that [save_to_file] chooses for a file name, if any. *)
Definition format_of (filename : string) : option file_format :=
  let ext := lower (snd (splitext filename)) in
  if String.eqb ext ".parquet" then Some Parquet
  else if String.eqb ext ".csv" then Some Csv
  else if String.eqb ext ".xlsx" then Some Excel
  else None.

(** An event that exports the table [rows]: a file in the format of its
    name that holds the rows, or a request that carries the rows holding a
    number, for the measurement with tag [area] and field [value]. Log
    records export nothing. *)
Definition exports (rows : list PriceRow) (measurement : string) (ev : event)
  : Prop :=
  match ev with
  | Log _ _ => True
  | FileWritten fmt filename written =>
      written = rows /\ format_of filename = Some fmt
  | NetworkCall req =>
      req_record req = Influxdb.points rows
      /\ req_measurement req = measurement
      /\ req_tag_columns req = ["area"]
      /\ req_field_columns req = ["value"]
  end.

(** The four connection parameters are all given. *)
Definition complete (p : Influxdb.Params) : bool := negb (missing p).

(** A clock between 1970 and the last day but one of year 9999. *)
Definition clock_in_range (now : Z) : Prop := 0 <= now < 253402214400.

(** A mapping whose price points pandas reads without surprise: every
    timestamp is a representable instant and every price is a number, so
    that a missing cell is never a price. *)
Definition plain_points (d : dict (list PricePoint)) : Prop :=
  forall k ps p,
    In (k, ps) d -> In p ps ->
    Pandas.in_bounds (timestamp p) = true
    /\ PrimFloat.is_nan (price p) = false.

(** A text of ASCII characters only. *)
Fixpoint ascii_only (s : string) : bool :=
  match s with
  | EmptyString => true
  | String c s' => (N_of_ascii c <? 128)%N && ascii_only s'
  end.

(** U+0138, LATIN SMALL LETTER KRA, as UTF-8 text: a lower-case letter
    that has no upper-case form, which [str.upper] leaves as it is. *)
Definition kra : string :=
  String (ascii_of_N 196) (String (ascii_of_N 184) EmptyString).

(** The text holds a lower-case letter that the statements know of: one
    of the ASCII letters a to z, or the letter [kra]. *)
Fixpoint has_lowercase (s : string) : bool :=
  match s with
  | EmptyString => false
  | String c s' =>
      is_lower c
      || match s' with
         | String c' _ => (N_of_ascii c =? 196)%N && (N_of_ascii c' =? 184)%N
         | EmptyString => false
         end
      || has_lowercase s'
  end.

(** The namespace respects the mutually exclusive group of the parser: at
    most one of [--start-time], [--tomorrow] and [--today] is given. *)
Definition exclusive (args : Cli.Namespace) : bool :=
  match Cli.start_time args, Cli.tomorrow args, Cli.today args with
  | Some _, false, false => true
  | None, true, false => true
  | None, false, true => true
  | None, false, false => true
  | _, _, _ => false
  end.

Arguments format_of : simpl never.
Arguments skip_warning : simpl never.

(* ================================================================== *)
(** * Strings and dicts *)

Lemma upper_char_not_lower (c : ascii) : is_lower (upper_char c) = false.
Proof.
  destruct c as [[] [] [] [] [] [] [] []]; reflexivity.
Qed.

Lemma upper_no_lowercase (s : string) : no_lowercase (upper s) = true.
Proof.
  induction s as [|c s IH]; simpl; [reflexivity|].
  now rewrite upper_char_not_lower, IH.
Qed.

Lemma upper_char_idem (c : ascii) : upper_char (upper_char c) = upper_char c.
Proof.
  unfold upper_char at 1. now rewrite upper_char_not_lower.
Qed.

Lemma upper_idem (s : string) : upper (upper s) = upper s.
Proof.
  induction s as [|c s IH]; simpl; [reflexivity|].
  now rewrite upper_char_idem, IH.
Qed.

Section DictFacts.

Context {V : Type}.
Implicit Types (d : dict V) (k : string) (v : V).

Lemma keys_dict_set_in k v d k' :
  In k' (keys (dict_set k v d)) -> k' = k \/ In k' (keys d).
Proof.
  unfold keys. induction d as [|[k0 v0] d IH]; simpl.
  - intros [H|[]]; auto.
  - destruct (String.eqb k k0) eqn:E; simpl.
    + auto.
    + intros [H|H]; auto. destruct (IH H); auto.
Qed.

Lemma dict_set_new k v d :
  ~ In k (keys d) -> dict_set k v d = (d ++ [(k, v)])%list.
Proof.
  unfold keys. induction d as [|[k0 v0] d IH]; simpl; intros H.
  - reflexivity.
  - destruct (String.eqb_spec k k0) as [->|N].
    + exfalso. auto.
    + rewrite IH; auto.
Qed.

Lemma dict_get_set_same k v d : dict_get k (dict_set k v d) = Some v.
Proof.
  induction d as [|[k0 v0] d IH]; simpl.
  - now rewrite String.eqb_refl.
  - destruct (String.eqb k k0) eqn:E; simpl; rewrite E; auto.
Qed.

Lemma dict_get_set_other k k' v d :
  k' <> k -> dict_get k' (dict_set k v d) = dict_get k' d.
Proof.
  intros N. induction d as [|[k0 v0] d IH]; simpl.
  - destruct (String.eqb_spec k' k); congruence.
  - destruct (String.eqb_spec k k0) as [->|N0]; simpl.
    + destruct (String.eqb_spec k' k0); congruence.
    + now rewrite IH.
Qed.

Lemma differ_at_set_any K k v d d' :
  differ_at K d d' -> differ_at K (dict_set k v d) (dict_set k v d').
Proof.
  induction 1 as [v1 v2 d0 | k0 v0 d0 d0' N H IH | d0]; simpl.
  - destruct (String.eqb k K); constructor.
  - destruct (String.eqb k k0); now constructor.
  - constructor.
Qed.

Lemma differ_at_set_key K v d d' :
  differ_at K d d' -> dict_set K v d = dict_set K v d'.
Proof.
  induction 1 as [v1 v2 d0 | k0 v0 d0 d0' N _ IH | d0]; simpl.
  - now rewrite String.eqb_refl.
  - destruct (String.eqb_spec K k0) as [->|_]; [congruence | now rewrite IH].
  - reflexivity.
Qed.

Lemma differ_at_init K v v' d :
  differ_at K (dict_set K v d) (dict_set K v' d).
Proof.
  induction d as [|[k0 v0] d IH]; simpl.
  - constructor.
  - destruct (String.eqb_spec K k0) as [->|N]; constructor; auto.
Qed.

End DictFacts.

(* ================================================================== *)
(** * The loops of the transform step *)

Lemma mapM_Forall2 {A B : Type} (f : A -> result B) (xs : list A) (ys : list B) :
  mapM f xs = Return ys -> Forall2 (fun x y => f x = Return y) xs ys.
Proof.
  revert ys. induction xs as [|x xs IH]; simpl; intros ys H.
  - injection H as <-. constructor.
  - destruct (f x) as [y|e] eqn:Ef; simpl in H; [|discriminate].
    destruct (mapM f xs) as [ys'|e] eqn:Em; simpl in H; [|discriminate].
    injection H as <-. constructor; auto.
Qed.

Lemma mapM_all {A B : Type} (f : A -> result B) (g : A -> B) (xs : list A) :
  (forall x, In x xs -> f x = Return (g x)) -> mapM f xs = Return (map g xs).
Proof.
  induction xs as [|x xs IH]; simpl; intros H; [reflexivity|].
  rewrite (H x), IH by auto. reflexivity.
Qed.

Lemma fill_df_dict_empty_list items acc country :
  In (country, []) items -> fill_df_dict items acc = Raise KeyError.
Proof.
  revert acc. induction items as [|[c ps] items IH]; simpl; intros acc H.
  - contradiction.
  - destruct ps as [|p ps]; [reflexivity|].
    destruct H as [H|H]; [discriminate|]. simpl. now apply IH.
Qed.

Lemma fill_df_dict_keys items acc dd :
  fill_df_dict items acc = Return dd ->
  forall k, In k (keys dd) -> In k (keys items) \/ In k (keys acc).
Proof.
  revert acc. induction items as [|[c ps] items IH]; simpl; intros acc H k Hk.
  - injection H as <-. auto.
  - destruct (Pandas.price_series ps) as [s|e]; simpl in H; [|discriminate].
    destruct (IH _ H k Hk) as [H1|H1]; auto.
    destruct (keys_dict_set_in _ _ _ _ H1); subst; auto.
Qed.

Lemma price_series_nonempty ps :
  ps <> [] -> Pandas.price_series ps = Return (series_of ps).
Proof.
  destruct ps; [congruence | reflexivity].
Qed.

Lemma fill_df_dict_unique_keys items acc :
  NoDup (keys items) ->
  (forall k, In k (keys items) -> ~ In k (keys acc)) ->
  (forall k ps, In (k, ps) items -> ps <> []) ->
  fill_df_dict items acc
  = Return (acc ++ map (fun kv => (fst kv, series_of (snd kv))) items)%list.
Proof.
  revert acc. induction items as [|[c ps] items IH]; simpl; intros acc ND D NE.
  - now rewrite app_nil_r.
  - rewrite price_series_nonempty by (eapply NE; eauto). simpl.
    inversion ND as [|? ? Hc ND']; subst.
    rewrite dict_set_new by auto.
    rewrite IH; auto.
    + now rewrite <- app_assoc.
    + intros k Hk. unfold keys. rewrite map_app, in_app_iff. simpl.
      intros [H|[H|[]]].
      * apply (D k); auto.
      * subst. auto.
    + intros k ps' H. eapply NE; eauto.
Qed.

Lemma align_columns idx (dd : dict Pandas.Series)
      (cols : list (string * list (option float))) :
  mapM (fun kv => col <- Pandas.reindex (snd kv) idx ;; Return (fst kv, col)) dd
  = Return cols ->
  Forall2 (fun kv c => fst c = fst kv
                       /\ Pandas.reindex (snd kv) idx = Return (snd c))
          dd cols.
Proof.
  intros Em. apply mapM_Forall2 in Em.
  induction Em as [|kv c l l' Hc _ IH]; constructor; auto.
  cbv beta in Hc.
  destruct (Pandas.reindex (snd kv) idx) as [col|e]; simpl in Hc;
    [|discriminate].
  injection Hc as <-. auto.
Qed.

Lemma DataFrame_columns dd df :
  Pandas.DataFrame dd = Return df ->
  Forall2 (fun kv c => fst c = fst kv
                       /\ Pandas.reindex (snd kv) (Pandas.index df)
                          = Return (snd c))
          dd (Pandas.columns df).
Proof.
  unfold Pandas.DataFrame. destruct dd as [|kv0 dd0].
  - intros H. injection H as <-. constructor.
  - destruct (mapM _ (kv0 :: dd0)) as [cols|e] eqn:Em; simpl; [|discriminate].
    intros H. injection H as <-. simpl.
    now apply align_columns.
Qed.

Lemma DataFrame_column_names dd df :
  Pandas.DataFrame dd = Return df -> map fst (Pandas.columns df) = keys dd.
Proof.
  intros H. apply DataFrame_columns in H. unfold keys.
  induction H as [|kv c l l' [Hc _] _ IH]; simpl; congruence.
Qed.

Lemma bind_inv {A B : Type} (r : result A) (k : A -> result B) (b : B) :
  bind r k = Return b -> exists a, r = Return a /\ k a = Return b.
Proof.
  destruct r as [a|e]; simpl; [eauto | discriminate].
Qed.

Lemma reset_index_inv {I : Type} name (df df' : Pandas.Frame I) :
  Pandas.reset_index name df = Return df' ->
  df' = df /\ ~ In name (map fst (Pandas.columns df)).
Proof.
  unfold Pandas.reset_index.
  destruct (existsb _ _) eqn:E; [discriminate|].
  intros H. injection H as <-. split; [reflexivity|].
  intros Hin. enough (Ht : existsb (String.eqb name)
                               (map fst (Pandas.columns df)) = true)
    by congruence.
  apply existsb_exists. exists name. split; auto.
  apply String.eqb_refl.
Qed.

Lemma melt_inv value_name df rows :
  Pandas.melt value_name df = Return rows ->
  rows = flat_map (fun c => Pandas.melt_column (Pandas.index df) (fst c) (snd c))
                  (Pandas.columns df).
Proof.
  unfold Pandas.melt. destruct (existsb _ _); [discriminate|].
  intros H. now injection H as <-.
Qed.

(** What [convert_to_dataframe] went through when it returns. *)
Lemma convert_to_dataframe_inv response rows :
  convert_to_dataframe response = Return rows ->
  exists dd df times,
    fill_df_dict (data response) [] = Return dd
    /\ Pandas.DataFrame dd = Return df
    /\ Pandas.to_datetime (Pandas.index df) = Return times
    /\ rows = flat_map (fun c => Pandas.melt_column times (fst c) (snd c))
                       (Pandas.columns df).
Proof.
  unfold convert_to_dataframe. intros H.
  apply bind_inv in H. destruct H as (dd & Hf & H).
  apply bind_inv in H. destruct H as (df & Hd & H).
  apply bind_inv in H. destruct H as (times & Ht & H).
  apply bind_inv in H. destruct H as (df' & Hr & H).
  apply reset_index_inv in Hr. destruct Hr as [-> _].
  apply melt_inv in H. exists dd, df, times. auto.
Qed.

Lemma melt_column_area times name cells r :
  In r (Pandas.melt_column times name cells) -> area r = name.
Proof.
  revert cells. induction times as [|t times IH]; intros [|v cells]; simpl;
    try contradiction.
  intros [<-|H]; [reflexivity | eauto].
Qed.

Lemma upper_keys_fixed (d acc : dict (list PricePoint)) :
  (forall k, In k (keys acc) -> upper k = k) ->
  forall k,
    In k (keys (fold_left (fun a kv => dict_set (upper (fst kv)) (snd kv) a)
                          d acc)) ->
    upper k = k.
Proof.
  revert acc. induction d as [|[k0 v0] d IH]; simpl; intros acc Hacc k Hk.
  - auto.
  - apply (IH _) in Hk; auto.
    intros k' Hk'. destruct (keys_dict_set_in _ _ _ _ Hk') as [->|H]; auto.
    apply upper_idem.
Qed.

(** Every row of a converted table is named after a region of the
    response. *)
Lemma convert_to_dataframe_areas response rows r :
  convert_to_dataframe response = Return rows ->
  In r rows -> In (area r) (keys (data response)).
Proof.
  intros H Hr.
  destruct (convert_to_dataframe_inv _ _ H) as (dd & df & times & Hf & Hd & _ & ->).
  apply in_flat_map in Hr. destruct Hr as (c & Hc & Hr).
  apply melt_column_area in Hr. rewrite Hr.
  assert (Hk : In (fst c) (keys dd)).
  { rewrite <- (DataFrame_column_names _ _ Hd). now apply in_map. }
  destruct (fill_df_dict_keys _ _ _ Hf _ Hk) as [H1|[]]. exact H1.
Qed.

(* ================================================================== *)
(** * Properties of the transform step *)

(** C7. For the response
    [{"success": true, "data": {"ee": [{"timestamp": 1700000000, "price": 45.2}]}}]
    the transform step gives exactly one row: time 2023-11-14T22:13:20Z, area
    "EE", value 45.2; the instant reads back as that calendar time. *)
Theorem transform_example :
  transform (mkPriceResponse true [("ee", [mkPricePoint 1700000000 45.2%float])])
  = Return [mkPriceRow (utc 2023 11 14 22 13 20) "EE" (Some 45.2%float)]
  /\ civil_of_timestamp (utc 2023 11 14 22 13 20)
     = mkCivil 2023 11 14 22 13 20 0.
Proof.
  split; vm_compute; reflexivity.
Qed.

(** C8. On a response whose data mapping is empty, [convert_to_dataframe]
    returns the empty table and raises nothing. *)
Theorem convert_to_dataframe_empty_mapping (ok : bool) :
  convert_to_dataframe (mkPriceResponse ok []) = Return [].
Proof.
  reflexivity.
Qed.

(** C10. When a region of the data mapping has an empty list of price
    points, [convert_to_dataframe] raises ([KeyError], from [set_index] on a
    frame without a timestamp column), whatever the other regions hold. *)
Theorem convert_to_dataframe_empty_region response country :
  In (country, []) (data response) ->
  convert_to_dataframe response = Raise KeyError.
Proof.
  intros H. unfold convert_to_dataframe.
  now rewrite (fill_df_dict_empty_list _ _ _ H).
Qed.

Lemma convert_to_dataframe_empty_region_witness :
  In ("FI", [])
     (data (mkPriceResponse true
              [("EE", [mkPricePoint 1700000000 45.2%float]); ("FI", [])]))
  /\ convert_to_dataframe
       (mkPriceResponse true
          [("EE", [mkPricePoint 1700000000 45.2%float]); ("FI", [])])
     = Raise KeyError.
Proof.
  assert (H : In ("FI", [])
                 (data (mkPriceResponse true
                          [("EE", [mkPricePoint 1700000000 45.2%float]);
                           ("FI", [])])))
    by (simpl; right; left; reflexivity).
  split; [exact H|].
  exact (convert_to_dataframe_empty_region _ "FI" H).
Defined.

Lemma upper_char_ascii (c : ascii) :
  (N_of_ascii c <? 128)%N = true -> (N_of_ascii (upper_char c) <? 128)%N = true.
Proof.
  destruct c as [[] [] [] [] [] [] [] []]; intros H; try discriminate;
    reflexivity.
Qed.

Lemma upper_ascii_only (s : string) :
  ascii_only s = true -> ascii_only (upper s) = true.
Proof.
  induction s as [|c s IH]; simpl; [reflexivity|].
  rewrite !andb_true_iff. intros [Hc Hs]. split; auto.
  now apply upper_char_ascii.
Qed.

Lemma has_lowercase_ascii (s : string) :
  ascii_only s = true -> has_lowercase s = negb (no_lowercase s).
Proof.
  induction s as [|c s IH]; [reflexivity|].
  cbn [ascii_only has_lowercase no_lowercase].
  rewrite andb_true_iff. intros [Hc Hs]. rewrite (IH Hs).
  assert (E : (N_of_ascii c =? 196)%N = false).
  { apply N.eqb_neq. apply N.ltb_lt in Hc. lia. }
  rewrite E. destruct s; cbn [andb]; rewrite orb_false_r;
    destruct (is_lower c); reflexivity.
Qed.

Lemma upper_keys_fold_origin (d acc : dict (list PricePoint)) K :
  In K (keys (fold_left (fun a kv => dict_set (upper (fst kv)) (snd kv) a)
                        d acc)) ->
  In K (keys acc) \/ exists k, In k (keys d) /\ K = upper k.
Proof.
  revert acc. induction d as [|[k0 v0] d IH]; simpl; intros acc H; auto.
  destruct (IH _ H) as [H1|(k & Hk & E)].
  - destruct (keys_dict_set_in _ _ _ _ H1) as [->|H2]; eauto.
  - eauto.
Qed.

(** C5, as the code has it. When the region keys of the response are
    ASCII texts, whatever their letter case, every row of the transformed
    table has an area that is ASCII, holds no lower-case letter, and is
    left unchanged by [upper]. *)
Theorem transform_area_uppercase response rows r :
  (forall k, In k (keys (data response)) -> ascii_only k = true) ->
  transform response = Return rows ->
  In r rows ->
  ascii_only (area r) = true
  /\ has_lowercase (area r) = false
  /\ no_lowercase (area r) = true
  /\ upper (area r) = area r.
Proof.
  intros Hascii H Hr.
  apply convert_to_dataframe_areas with (r := r) in H; auto.
  simpl in H. unfold upper_keys in H.
  destruct (upper_keys_fold_origin _ _ _ H) as [[]|(k & Hk & E)].
  assert (Ha : ascii_only (area r) = true).
  { rewrite E. apply upper_ascii_only. now apply Hascii. }
  assert (Hn : no_lowercase (area r) = true).
  { rewrite E. apply upper_no_lowercase. }
  split; [exact Ha|]. split; [|split; [exact Hn|]].
  - now rewrite (has_lowercase_ascii _ Ha), Hn.
  - rewrite E. apply upper_idem.
Qed.

Lemma transform_area_uppercase_witness :
  (forall k,
      In k (keys (data (mkPriceResponse true
                          [("ee", [mkPricePoint 1700000000 45.2%float])]))) ->
      ascii_only k = true)
  /\ transform
       (mkPriceResponse true [("ee", [mkPricePoint 1700000000 45.2%float])])
     = Return [mkPriceRow (utc 2023 11 14 22 13 20) "EE" (Some 45.2%float)]
  /\ ascii_only "EE" = true
  /\ has_lowercase "EE" = false
  /\ no_lowercase "EE" = true
  /\ upper "EE" = "EE".
Proof.
  assert (Ha : forall k,
             In k (keys (data (mkPriceResponse true
                                 [("ee", [mkPricePoint 1700000000
                                                       45.2%float])]))) ->
             ascii_only k = true).
  { intros k [<-|[]]. reflexivity. }
  assert (H : transform
                (mkPriceResponse true
                   [("ee", [mkPricePoint 1700000000 45.2%float])])
              = Return [mkPriceRow (utc 2023 11 14 22 13 20) "EE"
                                   (Some 45.2%float)])
    by (vm_compute; reflexivity).
  split; [exact Ha|]. split; [exact H|].
  apply (transform_area_uppercase _ _
           (mkPriceRow (utc 2023 11 14 22 13 20) "EE" (Some 45.2%float)) Ha H).
  simpl. left. reflexivity.
Defined.

(** C5, as stated, fails beyond ASCII: a region key made of the lower-case
    letter U+0138 is left as it is by the normalization, and the table has
    a row whose area is that lower-case letter. *)
Lemma lowercase_letter_survives :
  exists rows r,
    transform (mkPriceResponse true [(kra, [mkPricePoint 1700000000 45.2%float])])
    = Return rows
    /\ In r rows
    /\ area r = kra
    /\ has_lowercase (area r) = true.
Proof.
  exists [mkPriceRow (utc 2023 11 14 22 13 20) kra (Some 45.2%float)],
         (mkPriceRow (utc 2023 11 14 22 13 20) kra (Some 45.2%float)).
  split; [vm_compute; reflexivity|].
  split; [simpl; left; reflexivity|].
  split; reflexivity.
Qed.

Lemma upper_keys_fold_differ (K : string) (d D D' : dict (list PricePoint)) :
  differ_at K D D' ->
  differ_at K
    (fold_left (fun a kv => dict_set (upper (fst kv)) (snd kv) a) d D)
    (fold_left (fun a kv => dict_set (upper (fst kv)) (snd kv) a) d D').
Proof.
  revert D D'. induction d as [|[k v] d IH]; simpl; intros D D' H.
  - exact H.
  - apply IH. now apply differ_at_set_any.
Qed.

Lemma upper_keys_fold_get (K : string) (d D : dict (list PricePoint)) :
  (forall k v, In (k, v) d -> upper k <> K) ->
  dict_get K (fold_left (fun a kv => dict_set (upper (fst kv)) (snd kv) a) d D)
  = dict_get K D.
Proof.
  revert D. induction d as [|[k v] d IH]; simpl; intros D H.
  - reflexivity.
  - rewrite IH by eauto. apply dict_get_set_other.
    intros E. apply (H k v); auto.
Qed.

(** C9. When two region keys of the data mapping are equal after
    upper-casing, the normalization of [main] keeps, under the upper-cased
    key, the list of the key met last, and the transformed table does not
    depend on the list of the earlier key: its price points are dropped,
    without any error. *)
Theorem upper_keys_last_key_wins
        (ok : bool) (d1 d2 d3 : dict (list PricePoint))
        (k1 k2 : string) (v1 v2 : list PricePoint) :
  upper k1 = upper k2 ->
  (forall k v, In (k, v) d3 -> upper k <> upper k2) ->
  dict_get (upper k2)
           (upper_keys (d1 ++ (k1, v1) :: d2 ++ (k2, v2) :: d3)%list)
  = Some v2
  /\ forall v1',
       transform
         (mkPriceResponse ok (d1 ++ (k1, v1') :: d2 ++ (k2, v2) :: d3)%list)
       = transform
           (mkPriceResponse ok (d1 ++ (k1, v1) :: d2 ++ (k2, v2) :: d3)%list).
Proof.
  intros E Hlast. unfold transform, normalize, upper_keys. simpl.
  split.
  - rewrite fold_left_app. simpl. rewrite fold_left_app. simpl.
    rewrite upper_keys_fold_get by exact Hlast.
    apply dict_get_set_same.
  - intros v1'. do 2 f_equal.
    rewrite !fold_left_app. simpl. rewrite !fold_left_app. simpl.
    f_equal. rewrite E. apply differ_at_set_key.
    apply upper_keys_fold_differ. apply differ_at_init.
Qed.

Lemma upper_keys_last_key_wins_witness :
  upper "ee" = upper "EE"
  /\ dict_get "EE"
       (upper_keys [("ee", [mkPricePoint 1700000000 45.2%float]);
                    ("EE", [mkPricePoint 1700003600 50%float])])
     = Some [mkPricePoint 1700003600 50%float]
  /\ forall v1',
       transform
         (mkPriceResponse true
            [("ee", v1'); ("EE", [mkPricePoint 1700003600 50%float])])
       = transform
           (mkPriceResponse true
              [("ee", [mkPricePoint 1700000000 45.2%float]);
               ("EE", [mkPricePoint 1700003600 50%float])]).
Proof.
  split; [reflexivity|].
  apply (upper_keys_last_key_wins true [] [] [] "ee" "EE"
           [mkPricePoint 1700000000 45.2%float]
           [mkPricePoint 1700003600 50%float]).
  - reflexivity.
  - intros k v [].
Defined.

(* ================================================================== *)
(** * The file exporter *)

Lemma save_to_file_unsupported fs df filename :
  supported filename = false ->
  save_to_file fs df filename = ([Log WARNING (skip_warning filename)], Return tt).
Proof.
  unfold supported, save_to_file, skip_warning.
  destruct (String.eqb _ ".parquet"); [discriminate|].
  destruct (String.eqb _ ".csv"); [discriminate|].
  destruct (String.eqb _ ".xlsx"); [discriminate|].
  reflexivity.
Qed.

Lemma save_to_file_supported fs df filename :
  supported filename = true ->
  (forall fmt, fs fmt filename = None) ->
  exists fmt msg,
    save_to_file fs df filename
    = ([FileWritten fmt filename df; Log INFO msg], Return tt).
Proof.
  unfold supported, save_to_file, write_file. intros H Hfs.
  destruct (String.eqb _ ".parquet");
    [rewrite Hfs; simpl; eauto|].
  destruct (String.eqb _ ".csv");
    [rewrite Hfs; simpl; eauto|].
  destruct (String.eqb _ ".xlsx");
    [rewrite Hfs; simpl; eauto|].
  discriminate.
Qed.

(** The loop over the output file names, when no write fails. *)
Lemma save_all_files fs df filenames :
  (forall fmt f, In f filenames -> fs fmt f = None) ->
  outcome (for_each (save_to_file fs df) filenames) = Return tt
  /\ files_written (trace (for_each (save_to_file fs df) filenames))
     = filter supported filenames
  /\ logged WARNING (trace (for_each (save_to_file fs df) filenames))
     = map skip_warning (filter (fun f => negb (supported f)) filenames)
  /\ network_calls (trace (for_each (save_to_file fs df) filenames)) = [].
Proof.
  induction filenames as [|f fl IH]; intros Hfs.
  - repeat split.
  - destruct IH as (Ho & Hw & Hl & Hn); [intros; apply Hfs; simpl; auto|].
    unfold outcome, trace in *. simpl for_each.
    destruct (for_each (save_to_file fs df) fl) as [tr r]. simpl in *. subst r.
    destruct (supported f) eqn:Es.
    + destruct (save_to_file_supported fs df f Es) as (fmt & msg & ->).
      { intros fmt. apply Hfs. simpl. auto. }
      simpl. rewrite ?Es, Hw, Hl, Hn. simpl. repeat split.
    + rewrite (save_to_file_unsupported fs df f Es).
      simpl. rewrite ?Es, Hw, Hl, Hn. simpl. repeat split.
Qed.

(** C6. Over a list of output paths, and as long as no write fails, the
    loop of [main] writes a file exactly for the paths whose extension is
    .parquet, .csv or .xlsx (letter case apart); every other path is skipped
    with a warning that names its extension, and the loop goes on. So with
    two paths, a .csv one then a .txt one, exactly one file is written. *)
Theorem save_to_file_skips_unsupported
        (fs : file_format -> string -> option exn) (df : list PriceRow) :
  (forall filenames,
      (forall fmt f, In f filenames -> fs fmt f = None) ->
      outcome (for_each (save_to_file fs df) filenames) = Return tt
      /\ files_written (trace (for_each (save_to_file fs df) filenames))
         = filter supported filenames
      /\ logged WARNING (trace (for_each (save_to_file fs df) filenames))
         = map skip_warning (filter (fun f => negb (supported f)) filenames))
  /\ (forall a b,
         lower (snd (splitext a)) = ".csv" ->
         lower (snd (splitext b)) = ".txt" ->
         (forall fmt, fs fmt a = None) ->
         outcome (for_each (save_to_file fs df) [a; b]) = Return tt
         /\ files_written (trace (for_each (save_to_file fs df) [a; b])) = [a]
         /\ logged WARNING (trace (for_each (save_to_file fs df) [a; b]))
            = [skip_warning b]).
Proof.
  split.
  - intros filenames Hfs.
    destruct (save_all_files fs df filenames Hfs) as (Ho & Hw & Hl & _). auto.
  - intros a b Ea Eb Hfs.
    assert (Sa : supported a = true) by (unfold supported; now rewrite Ea).
    assert (Sb : supported b = false) by (unfold supported; now rewrite Eb).
    unfold outcome, trace. simpl for_each.
    destruct (save_to_file_supported fs df a Sa Hfs) as (fmt & msg & ->).
    rewrite (save_to_file_unsupported fs df b Sb). simpl. auto.
Qed.

Lemma save_to_file_skips_unsupported_witness :
  files_written
    (trace (for_each (save_to_file (fun _ _ => None) [])
                     ["prices.csv"; "notes.txt"]))
  = ["prices.csv"]
  /\ logged WARNING
       (trace (for_each (save_to_file (fun _ _ => None) [])
                        ["prices.csv"; "notes.txt"]))
     = ["Unsupported file extension: .txt. Skipping file: notes.txt"].
Proof.
  destruct (save_to_file_skips_unsupported (fun _ _ => None) []) as [_ H].
  destruct (H "prices.csv" "notes.txt") as (_ & Hw & Hl).
  - reflexivity.
  - reflexivity.
  - intros fmt. reflexivity.
  - split; [exact Hw | exact Hl].
Defined.

(* ================================================================== *)
(** * The database writer *)

Lemma network_calls_app tr tr' :
  network_calls (tr ++ tr') = (network_calls tr ++ network_calls tr')%list.
Proof.
  induction tr as [|[l msg|fmt f rows|req] tr IH]; simpl; congruence.
Qed.

Lemma get_influxdb_args_missing argv environ :
  missing (Influxdb.parse_known_args argv environ) = true ->
  Influxdb.get_influxdb_args argv environ = ([], Raise RuntimeError).
Proof.
  unfold Influxdb.get_influxdb_args, missing.
  destruct (Influxdb.parse_known_args argv environ) as [[u|] [t|] [o|] [b|]];
    simpl; intros H; try discriminate; reflexivity.
Qed.

Lemma write_dataframe_missing argv environ server df m tags fields :
  missing (Influxdb.parse_known_args argv environ) = true ->
  Influxdb.write_dataframe_to_influxdb argv environ server df m tags fields
  = ([Log ERROR "Error writing DataFrame to InfluxDB"], Return false).
Proof.
  intros H.
  unfold Influxdb.write_dataframe_to_influxdb, Influxdb.write_dataframe_body.
  rewrite (get_influxdb_args_missing _ _ H). reflexivity.
Qed.

Lemma write_dataframe_body_complete
      argv environ server df m tags fields url token org bucket :
  Influxdb.parse_known_args argv environ
  = Influxdb.mkParams (Some url) (Some token) (Some org) (Some bucket) ->
  Influxdb.write_dataframe_body argv environ server df m tags fields
  = match Influxdb.points df with
    | [] =>
        ([Log INFO "Got InfluxDB parameters"; Log INFO "Write DataFrame";
          Log DEBUG "df"], Return true)
    | _ :: _ =>
        let req := mkInfluxRequest url token org bucket (Influxdb.points df)
                                   m tags fields in
        ([Log INFO "Got InfluxDB parameters"; Log INFO "Write DataFrame";
          Log DEBUG "df"; NetworkCall req],
         match server req with
         | None => Return true
         | Some e => Raise e
         end)
    end.
Proof.
  intros H.
  unfold Influxdb.write_dataframe_body, Influxdb.get_influxdb_args,
    Influxdb.write_api_write.
  rewrite H. cbn [Influxdb.check_mandatory]. simpl.
  destruct (Influxdb.points df) as [|p ps]; [reflexivity|].
  simpl. destruct (server _); reflexivity.
Qed.

(** C4. With the four connection parameters present and a table that has
    a point to send, when the client raises [e] during the write,
    [write_dataframe_to_influxdb] returns False if [e] is an
    [ApiException] (status 401 or any other), a [ValueError], a
    [TypeError] or a [RuntimeError], and lets any other exception through;
    so a 401 answer gives False and a network timeout propagates. *)
Theorem write_dataframe_to_influxdb_handles
        (argv environ : Influxdb.Params) (server : InfluxRequest -> option exn)
        (df : list PriceRow) (measurement_name : string)
        (tag_columns field_columns : list string)
        (url token org bucket : string) :
  Influxdb.parse_known_args argv environ
  = Influxdb.mkParams (Some url) (Some token) (Some org) (Some bucket) ->
  Influxdb.points df <> [] ->
  let req := mkInfluxRequest url token org bucket (Influxdb.points df)
                             measurement_name tag_columns field_columns in
  (forall e,
      server req = Some e ->
      outcome (Influxdb.write_dataframe_to_influxdb
                 argv environ server df measurement_name
                 tag_columns field_columns)
      = if handled e then Return false else Raise e)
  /\ (forall status, handled (ApiException status) = true)
  /\ handled ValueError = true
  /\ handled TypeError = true
  /\ handled RuntimeError = true
  /\ handled ReadTimeoutError = false
  /\ (server req = Some (ApiException 401) ->
      outcome (Influxdb.write_dataframe_to_influxdb
                 argv environ server df measurement_name
                 tag_columns field_columns)
      = Return false)
  /\ (server req = Some ReadTimeoutError ->
      outcome (Influxdb.write_dataframe_to_influxdb
                 argv environ server df measurement_name
                 tag_columns field_columns)
      = Raise ReadTimeoutError).
Proof.
  intros Hp Hne req.
  assert (G : forall e,
             server req = Some e ->
             outcome (Influxdb.write_dataframe_to_influxdb
                        argv environ server df measurement_name
                        tag_columns field_columns)
             = if handled e then Return false else Raise e).
  { intros e He. unfold Influxdb.write_dataframe_to_influxdb.
    rewrite (write_dataframe_body_complete _ _ _ _ _ _ _ _ _ _ _ Hp).
    subst req. destruct (Influxdb.points df) as [|p ps]; [congruence|].
    cbv zeta. rewrite He. unfold handled, outcome.
    destruct (isinstance e "ApiException").
    - destruct (match exn_status e with Some s => s =? 401 | None => false end);
        reflexivity.
    - simpl orb.
      destruct (isinstance e "ValueError" || isinstance e "TypeError"
                || isinstance e "RuntimeError"); reflexivity. }
  repeat split; try reflexivity.
  - exact G.
  - intros He. now rewrite (G _ He).
  - intros He. now rewrite (G _ He).
Qed.

Lemma write_dataframe_to_influxdb_handles_witness :
  Influxdb.parse_known_args
    Influxdb.no_params
    (Influxdb.mkParams (Some "http://localhost:8086") (Some "token")
                       (Some "org") (Some "prices"))
  = Influxdb.mkParams (Some "http://localhost:8086") (Some "token")
                      (Some "org") (Some "prices")
  /\ Influxdb.points
       [mkPriceRow (utc 2023 11 14 22 13 20) "EE" (Some 45.2%float)]
     <> []
  /\ outcome (Influxdb.write_dataframe_to_influxdb
                Influxdb.no_params
                (Influxdb.mkParams (Some "http://localhost:8086") (Some "token")
                                   (Some "org") (Some "prices"))
                (fun _ => Some (ApiException 401))
                [mkPriceRow (utc 2023 11 14 22 13 20) "EE" (Some 45.2%float)]
                "price" ["area"] ["value"])
     = Return false
  /\ outcome (Influxdb.write_dataframe_to_influxdb
                Influxdb.no_params
                (Influxdb.mkParams (Some "http://localhost:8086") (Some "token")
                                   (Some "org") (Some "prices"))
                (fun _ => Some ReadTimeoutError)
                [mkPriceRow (utc 2023 11 14 22 13 20) "EE" (Some 45.2%float)]
                "price" ["area"] ["value"])
     = Raise ReadTimeoutError.
Proof.
  assert (Hne : Influxdb.points
                  [mkPriceRow (utc 2023 11 14 22 13 20) "EE" (Some 45.2%float)]
                <> []) by (vm_compute; discriminate).
  split; [reflexivity|]. split; [exact Hne|]. split.
  - destruct (write_dataframe_to_influxdb_handles
                Influxdb.no_params
                (Influxdb.mkParams (Some "http://localhost:8086")
                                   (Some "token") (Some "org") (Some "prices"))
                (fun _ => Some (ApiException 401))
                [mkPriceRow (utc 2023 11 14 22 13 20) "EE" (Some 45.2%float)]
                "price" ["area"] ["value"]
                "http://localhost:8086" "token" "org" "prices" eq_refl Hne)
      as (_ & _ & _ & _ & _ & _ & H & _).
    apply H. reflexivity.
  - destruct (write_dataframe_to_influxdb_handles
                Influxdb.no_params
                (Influxdb.mkParams (Some "http://localhost:8086")
                                   (Some "token") (Some "org") (Some "prices"))
                (fun _ => Some ReadTimeoutError)
                [mkPriceRow (utc 2023 11 14 22 13 20) "EE" (Some 45.2%float)]
                "price" ["area"] ["value"]
                "http://localhost:8086" "token" "org" "prices" eq_refl Hne)
      as (_ & _ & _ & _ & _ & _ & _ & H).
    apply H. reflexivity.
Defined.

(** C2, as the code has it. When at least one of the four connection
    parameters is absent from both the flags and the environment,
    [get_influxdb_args] raises [RuntimeError] before any network call;
    [write_dataframe_to_influxdb] catches it, logs an error and returns
    False; and [main], when the transform and the file writes raised
    nothing, ends normally with exit status 0, no request sent. *)
Theorem missing_parameter_reported_as_failure
        (argv environ : Influxdb.Params) (server : InfluxRequest -> option exn) :
  missing (Influxdb.parse_known_args argv environ) = true ->
  Influxdb.get_influxdb_args argv environ = ([], Raise RuntimeError)
  /\ (forall df measurement_name tag_columns field_columns,
         Influxdb.write_dataframe_to_influxdb
           argv environ server df measurement_name tag_columns field_columns
         = ([Log ERROR "Error writing DataFrame to InfluxDB"], Return false))
  /\ (forall args fetched fs rows,
         success fetched = true ->
         transform fetched = Return rows ->
         (forall fmt f, fs fmt f = None) ->
         outcome (main args fetched fs argv environ server) = Return tt
         /\ exit_status (outcome (main args fetched fs argv environ server)) = 0
         /\ network_calls (trace (main args fetched fs argv environ server))
            = []).
Proof.
  intros Hm. split; [now apply get_influxdb_args_missing|].
  split; [intros; now apply write_dataframe_missing|].
  intros args fetched fs rows Hs Ht Hfs.
  assert (G : outcome (main args fetched fs argv environ server) = Return tt
              /\ network_calls (trace (main args fetched fs argv environ server))
                 = []).
  { unfold main. change (success (normalize fetched)) with (success fetched).
    rewrite Hs. unfold transform in Ht. rewrite Ht.
    unfold lift. cbv beta iota delta [bindM].
    rewrite (write_dataframe_missing _ _ server rows
               (influxdb_measurement args) ["area"] ["value"] Hm).
    destruct (output_filename args) as [[|f fl]|]; try (split; reflexivity).
    destruct (save_all_files fs rows (f :: fl)) as (Ho & _ & _ & Hn);
      [intros; apply Hfs|].
    unfold outcome, trace in *.
    destruct (for_each (save_to_file fs rows) (f :: fl)) as [tr r].
    simpl in Ho, Hn. subst r. simpl.
    rewrite network_calls_app, Hn. split; reflexivity. }
  destruct G as [Go Gn]. rewrite Go. auto.
Qed.

Lemma missing_parameter_reported_as_failure_witness :
  missing (Influxdb.parse_known_args
             Influxdb.no_params
             (Influxdb.mkParams (Some "http://localhost:8086") None
                                (Some "org") (Some "prices")))
  = true
  /\ Influxdb.get_influxdb_args
       Influxdb.no_params
       (Influxdb.mkParams (Some "http://localhost:8086") None
                          (Some "org") (Some "prices"))
     = ([], Raise RuntimeError)
  /\ Influxdb.write_dataframe_to_influxdb
       Influxdb.no_params
       (Influxdb.mkParams (Some "http://localhost:8086") None
                          (Some "org") (Some "prices"))
       (fun _ => None) [] "price" ["area"] ["value"]
     = ([Log ERROR "Error writing DataFrame to InfluxDB"], Return false).
Proof.
  split; [reflexivity|].
  destruct (missing_parameter_reported_as_failure
              Influxdb.no_params
              (Influxdb.mkParams (Some "http://localhost:8086") None
                                 (Some "org") (Some "prices"))
              (fun _ => None) eq_refl)
    as (Hg & Hw & _).
  split; [exact Hg | apply Hw].
Defined.

(** C2, as stated, fails: with no connection parameter at all, the write
    step raises nothing and returns False, and [main] ends with exit status
    0. *)
Lemma missing_parameter_not_fatal :
  outcome (Influxdb.write_dataframe_to_influxdb
             Influxdb.no_params Influxdb.no_params (fun _ => None)
             [mkPriceRow (utc 2023 11 14 22 13 20) "EE" (Some 45.2%float)]
             "price" ["area"] ["value"])
  = Return false
  /\ exit_status
       (outcome
          (main (mkArgs "price" None)
                (mkPriceResponse true
                   [("ee", [mkPricePoint 1700000000 45.2%float])])
                (fun _ _ => None)
                Influxdb.no_params Influxdb.no_params (fun _ => None)))
     = 0.
Proof.
  split; vm_compute; reflexivity.
Qed.

(* ================================================================== *)
(** * pandas: indexes, alignment, melting *)

Lemma mem_In t l : Pandas.mem t l = true <-> In t l.
Proof.
  unfold Pandas.mem. rewrite existsb_exists. split.
  - intros (x & Hx & E). apply Z.eqb_eq in E. now subst.
  - intros H. exists t. split; [exact H | apply Z.eqb_refl].
Qed.

Lemma is_unique_NoDup l : Pandas.is_unique l = true <-> NoDup l.
Proof.
  induction l as [|x l IH]; simpl.
  - split; [constructor | reflexivity].
  - rewrite andb_true_iff, negb_true_iff, IH. split.
    + intros [Hm Hn]. constructor; auto.
      intros Hin. apply mem_In in Hin. congruence.
    + intros H. inversion H as [|? ? Hx Hn]; subst. split; auto.
      destruct (Pandas.mem x l) eqn:E; auto.
      apply mem_In in E. contradiction.
Qed.

Lemma index_equals_eq a b : Pandas.index_equals a b = true <-> a = b.
Proof.
  revert b. induction a as [|x a IH]; intros [|y b]; simpl;
    try (split; [discriminate | congruence]).
  - split; reflexivity.
  - rewrite andb_true_iff, Z.eqb_eq, IH. split.
    + intros [-> ->]. reflexivity.
    + intros H. injection H as -> ->. auto.
Qed.

Lemma series_index_series_of prices :
  Pandas.series_index (series_of prices) = timestamps prices.
Proof.
  unfold Pandas.series_index, series_of, timestamps.
  rewrite map_map. reflexivity.
Qed.

Lemma to_datetime_all idx :
  (forall t, In t idx -> Pandas.in_bounds t = true) ->
  Pandas.to_datetime idx = Return (map instant idx).
Proof.
  intros H. apply mapM_all. intros t Ht.
  unfold Pandas.to_datetime_s. now rewrite (H t Ht).
Qed.

Lemma to_datetime_inv idx times :
  Pandas.to_datetime idx = Return times -> times = map instant idx.
Proof.
  intros H. apply mapM_Forall2 in H.
  induction H as [|t ts l l' Ht _ IH]; simpl; [reflexivity|].
  unfold Pandas.to_datetime_s in Ht.
  destruct (Pandas.in_bounds t); [|discriminate].
  injection Ht as <-. now rewrite IH.
Qed.

(** The rows of a column that still has the labels and values of a
    region's list. *)
Lemma melt_column_series_of country prices :
  Pandas.melt_column (map instant (timestamps prices)) country
                     (map (fun kv => Some (snd kv)) (series_of prices))
  = map (row_of country) prices.
Proof.
  induction prices as [|p prices IH]; simpl; [reflexivity|].
  now rewrite IH.
Qed.

Lemma rows_of_area_same times name cells :
  rows_of_area name (Pandas.melt_column times name cells)
  = Pandas.melt_column times name cells.
Proof.
  unfold rows_of_area.
  revert cells. induction times as [|t times IH]; intros [|v cells]; simpl;
    try reflexivity.
  now rewrite String.eqb_refl, IH.
Qed.

Lemma rows_of_area_other times name name' cells :
  name' <> name ->
  rows_of_area name (Pandas.melt_column times name' cells) = [].
Proof.
  unfold rows_of_area. intros N.
  revert cells. induction times as [|t times IH]; intros [|v cells]; simpl;
    try reflexivity.
  destruct (String.eqb_spec name' name); [contradiction | apply IH].
Qed.

Lemma rows_of_area_app name rows rows' :
  rows_of_area name (rows ++ rows')
  = (rows_of_area name rows ++ rows_of_area name rows')%list.
Proof.
  apply filter_app.
Qed.

Lemma rows_of_area_absent times name
      (cols : list (string * list (option float))) :
  ~ In name (map fst cols) ->
  rows_of_area name
    (flat_map (fun c => Pandas.melt_column times (fst c) (snd c)) cols) = [].
Proof.
  induction cols as [|[n c] cols IH]; simpl; intros H; [reflexivity|].
  rewrite rows_of_area_app, rows_of_area_other, IH; auto.
Qed.

(** In a frame with distinct column names, the rows of an area are the
    rows of its column. *)
Lemma rows_of_area_column times name cells
      (cols : list (string * list (option float))) :
  NoDup (map fst cols) ->
  In (name, cells) cols ->
  rows_of_area name
    (flat_map (fun c => Pandas.melt_column times (fst c) (snd c)) cols)
  = Pandas.melt_column times name cells.
Proof.
  induction cols as [|[n c] cols IH]; simpl; intros ND H; [contradiction|].
  inversion ND as [|? ? Hn ND']; subst.
  rewrite rows_of_area_app. destruct H as [H|H].
  - injection H as -> ->.
    rewrite rows_of_area_same, rows_of_area_absent by exact Hn.
    apply app_nil_r.
  - rewrite rows_of_area_other, IH; auto.
    intros ->. apply Hn. change name with (fst (name, cells)).
    now apply in_map.
Qed.

Lemma Forall2_In_left {A B : Type} (R : A -> B -> Prop) l l' x :
  Forall2 R l l' -> In x l -> exists y, In y l' /\ R x y.
Proof.
  induction 1 as [|a b l l' Hab _ IH]; simpl; [contradiction|].
  intros [<-|H]; [eauto|].
  destruct (IH H) as (y & Hy & Hr). eauto.
Qed.

Lemma fill_df_dict_nonempty items acc dd :
  fill_df_dict items acc = Return dd ->
  forall k ps, In (k, ps) items -> ps <> [].
Proof.
  intros H k ps Hin ->.
  rewrite (fill_df_dict_empty_list _ _ _ Hin) in H. discriminate.
Qed.

(** With distinct region keys, [df_dict] holds the Series of each region,
    in the order of the mapping. *)
Lemma fill_df_dict_series (d : dict (list PricePoint)) dd :
  NoDup (keys d) ->
  fill_df_dict d [] = Return dd ->
  dd = map (fun kv => (fst kv, series_of (snd kv))) d.
Proof.
  intros ND H.
  rewrite fill_df_dict_unique_keys in H; auto.
  - now injection H as <-.
  - eapply fill_df_dict_nonempty; eauto.
Qed.

Lemma reindex_same s :
  Pandas.reindex s (Pandas.series_index s)
  = Return (map (fun kv => Some (snd kv)) s).
Proof.
  unfold Pandas.reindex.
  now rewrite (proj2 (index_equals_eq _ _) eq_refl).
Qed.

Lemma existsb_eqb_false name (names : list string) :
  ~ In name names -> existsb (String.eqb name) names = false.
Proof.
  intros H. destruct (existsb _ _) eqn:E; [|reflexivity].
  apply existsb_exists in E. destruct E as (x & Hx & E).
  apply String.eqb_eq in E. subst. contradiction.
Qed.

(** [convert_to_dataframe] returns when each of its steps does. *)
Lemma convert_to_dataframe_steps response dd idx cols :
  fill_df_dict (data response) [] = Return dd ->
  Pandas.DataFrame dd = Return (Pandas.mkFrame idx cols) ->
  (forall t, In t idx -> Pandas.in_bounds t = true) ->
  ~ In "time" (map fst cols) ->
  ~ In "value" (map fst cols) ->
  convert_to_dataframe response
  = Return (flat_map
              (fun c => Pandas.melt_column (map instant idx) (fst c) (snd c))
              cols).
Proof.
  intros Hf Hd Hb Ht Hv. unfold convert_to_dataframe.
  rewrite Hf. cbn [bind]. rewrite Hd. cbn [bind Pandas.index Pandas.columns].
  rewrite (to_datetime_all _ Hb). cbn [bind].
  unfold Pandas.reset_index, Pandas.melt. cbn [Pandas.columns Pandas.index].
  rewrite (existsb_eqb_false _ _ Ht). cbn [bind Pandas.columns Pandas.index].
  now rewrite (existsb_eqb_false _ _ Hv).
Qed.

(** C3, as the code has it. The indexing step overwrites nothing: on a
    mapping whose timestamps are all representable instants, when
    [convert_to_dataframe] returns and a region has a repeated timestamp,
    the rows of that region are its price points, one row each, in order,
    every one with its own price, so the pair (region, timestamp) has as
    many rows as the list has entries with that timestamp. With a single
    region (not named "time" or "value", with timestamps in range) it does
    return, with exactly these rows. *)
Theorem convert_to_dataframe_keeps_repeated_timestamps :
  (forall response rows country prices,
      NoDup (keys (data response)) ->
      (forall k ps t,
          In (k, ps) (data response) -> In t (timestamps ps) ->
          Pandas.in_bounds t = true) ->
      In (country, prices) (data response) ->
      Pandas.is_unique (timestamps prices) = false ->
      convert_to_dataframe response = Return rows ->
      rows_of_area country rows = map (row_of country) prices)
  /\ (forall ok country prices,
         prices <> [] ->
         country <> "time" ->
         country <> "value" ->
         (forall p, In p prices -> Pandas.in_bounds (timestamp p) = true) ->
         convert_to_dataframe (mkPriceResponse ok [(country, prices)])
         = Return (map (row_of country) prices)).
Proof.
  split.
  - intros response rows country prices ND _ Hin Hu Hc.
    destruct (convert_to_dataframe_inv _ _ Hc)
      as (dd & df & times & Hf & Hd & Ht & ->).
    pose proof (fill_df_dict_series _ _ ND Hf) as ->.
    apply to_datetime_inv in Ht. subst times.
    pose proof (DataFrame_columns _ _ Hd) as HC.
    pose proof (DataFrame_column_names _ _ Hd) as HN.
    assert (Hs : In (country, series_of prices)
                    (map (fun kv => (fst kv, series_of (snd kv)))
                         (data response))).
    { apply in_map_iff. exists (country, prices). auto. }
    destruct (Forall2_In_left _ _ _ _ HC Hs) as ([n col] & Hcol & Hn & Hr).
    simpl in Hn, Hr. subst n.
    unfold Pandas.reindex in Hr. rewrite series_index_series_of in Hr.
    destruct (Pandas.index_equals (timestamps prices) (Pandas.index df)) eqn:E.
    + apply index_equals_eq in E. injection Hr as <-.
      rewrite (rows_of_area_column _ country _ _) with (2 := Hcol).
      * rewrite <- E. apply melt_column_series_of.
      * rewrite HN. unfold keys. rewrite map_map. exact ND.
    + rewrite Hu in Hr. discriminate.
  - intros ok country prices NE Nt Nv Hb.
    rewrite (convert_to_dataframe_steps _
               [(country, series_of prices)] (timestamps prices)
               [(country, map (fun kv => Some (snd kv)) (series_of prices))]).
    + cbn [flat_map fst snd]. rewrite app_nil_r.
      now rewrite melt_column_series_of.
    + cbn [data fill_df_dict]. rewrite price_series_nonempty by exact NE.
      reflexivity.
    + unfold Pandas.DataFrame.
      cbn [map Pandas.union_indexes mapM snd fst].
      rewrite reindex_same, series_index_series_of. reflexivity.
    + intros t Ht. apply in_map_iff in Ht. destruct Ht as (p & <- & Hp).
      now apply Hb.
    + intros [H|[]]. simpl in H. congruence.
    + intros [H|[]]. simpl in H. congruence.
Qed.

Lemma convert_to_dataframe_keeps_repeated_timestamps_witness :
  convert_to_dataframe
    (mkPriceResponse true
       [("EE", [mkPricePoint 1700000000 45.2%float;
                mkPricePoint 1700000000 50%float])])
  = Return [mkPriceRow (utc 2023 11 14 22 13 20) "EE" (Some 45.2%float);
            mkPriceRow (utc 2023 11 14 22 13 20) "EE" (Some 50%float)]
  /\ rows_of_area "EE"
       [mkPriceRow (utc 2023 11 14 22 13 20) "EE" (Some 45.2%float);
        mkPriceRow (utc 2023 11 14 22 13 20) "EE" (Some 50%float)]
     = map (row_of "EE") [mkPricePoint 1700000000 45.2%float;
                          mkPricePoint 1700000000 50%float].
Proof.
  destruct convert_to_dataframe_keeps_repeated_timestamps as [H1 H2].
  assert (E : convert_to_dataframe
                (mkPriceResponse true
                   [("EE", [mkPricePoint 1700000000 45.2%float;
                            mkPricePoint 1700000000 50%float])])
              = Return [mkPriceRow (utc 2023 11 14 22 13 20) "EE"
                                   (Some 45.2%float);
                        mkPriceRow (utc 2023 11 14 22 13 20) "EE"
                                   (Some 50%float)]).
  { apply (H2 true "EE" [mkPricePoint 1700000000 45.2%float;
                         mkPricePoint 1700000000 50%float]).
    - discriminate.
    - discriminate.
    - discriminate.
    - intros p [<-|[<-|[]]]; reflexivity. }
  split; [exact E|].
  apply (H1 (mkPriceResponse true
               [("EE", [mkPricePoint 1700000000 45.2%float;
                        mkPricePoint 1700000000 50%float])])).
  - repeat constructor. intros [].
  - intros k ps t [H|[]]. injection H as <- <-.
    intros [<-|[<-|[]]]; reflexivity.
  - simpl. left. reflexivity.
  - reflexivity.
  - exact E.
Defined.

(** C3, as stated, fails: a region with two entries at the same timestamp
    gets two rows for that (region, timestamp) pair, the first with the
    price of the first entry; no single row with the last price is kept. *)
Lemma repeated_timestamp_not_overwritten :
  exists rows,
    convert_to_dataframe
      (mkPriceResponse true
         [("EE", [mkPricePoint 1700000000 45.2%float;
                  mkPricePoint 1700000000 50%float])])
    = Return rows
    /\ List.length (rows_at "EE" (instant 1700000000) rows) = 2%nat
    /\ rows_at "EE" (instant 1700000000) rows
       <> [mkPriceRow (instant 1700000000) "EE" (Some 50%float)].
Proof.
  eexists. split; [vm_compute; reflexivity|].
  split; [reflexivity | discriminate].
Qed.

(* ================================================================== *)
(** * The normalized mapping *)

Section NormalizedMapping.

Context {V : Type}.
Implicit Types (d : dict V) (k : string) (v : V).

Lemma dict_set_NoDup k v d : NoDup (keys d) -> NoDup (keys (dict_set k v d)).
Proof.
  unfold keys. induction d as [|[k0 v0] d IH]; simpl; intros ND.
  - constructor; [intros [] | constructor].
  - inversion ND as [|? ? Hk ND']; subst.
    destruct (String.eqb_spec k k0) as [->|N]; simpl.
    + constructor; auto.
    + constructor; auto.
      intros Hin. destruct (keys_dict_set_in _ _ _ _ Hin); auto.
Qed.

Lemma dict_set_In k v d k' v' :
  In (k', v') (dict_set k v d) -> (k' = k /\ v' = v) \/ In (k', v') d.
Proof.
  induction d as [|[k0 v0] d IH]; simpl.
  - intros [H|[]]. injection H as <- <-. auto.
  - destruct (String.eqb_spec k k0) as [->|N]; simpl.
    + intros [H|H]; [injection H as <- <-|]; auto.
    + intros [H|H]; auto. destruct (IH H); auto.
Qed.

Lemma dict_set_length k v d :
  (List.length (dict_set k v d) <= S (List.length d))%nat.
Proof.
  induction d as [|[k0 v0] d IH]; simpl; [lia|].
  destruct (String.eqb k k0); simpl; lia.
Qed.

Lemma dict_get_In k v d : NoDup (keys d) -> In (k, v) d -> dict_get k d = Some v.
Proof.
  unfold keys. induction d as [|[k0 v0] d IH]; simpl; intros ND H.
  - contradiction.
  - inversion ND as [|? ? Hk ND']; subst.
    destruct H as [H|H].
    + injection H as -> ->. now rewrite String.eqb_refl.
    + destruct (String.eqb_spec k k0) as [->|N]; auto.
      exfalso. apply Hk. change k0 with (fst (k0, v)). now apply in_map.
Qed.

Lemma keys_In k d : In k (keys d) -> exists v, In (k, v) d.
Proof.
  unfold keys. intros H. apply in_map_iff in H.
  destruct H as ([k' v] & <- & H). eauto.
Qed.

End NormalizedMapping.

Lemma upper_keys_fold_NoDup (d acc : dict (list PricePoint)) :
  NoDup (keys acc) ->
  NoDup (keys (fold_left (fun a kv => dict_set (upper (fst kv)) (snd kv) a)
                         d acc)).
Proof.
  revert acc. induction d as [|[k v] d IH]; simpl; intros acc H; auto.
  apply IH. now apply dict_set_NoDup.
Qed.

Lemma upper_keys_NoDup d : NoDup (keys (upper_keys d)).
Proof.
  apply upper_keys_fold_NoDup. constructor.
Qed.

Lemma upper_keys_fold_values (d acc : dict (list PricePoint)) k ps :
  In (k, ps)
     (fold_left (fun a kv => dict_set (upper (fst kv)) (snd kv) a) d acc) ->
  In (k, ps) acc \/ exists k', In (k', ps) d.
Proof.
  revert acc. induction d as [|[k0 v0] d IH]; simpl; intros acc H; auto.
  destruct (IH _ H) as [H1|(k' & H1)]; [|eauto].
  destruct (dict_set_In _ _ _ _ _ H1) as [[_ ->]|H2]; eauto.
Qed.

Lemma upper_keys_values d k ps :
  In (k, ps) (upper_keys d) -> exists k', In (k', ps) d.
Proof.
  intros H. destruct (upper_keys_fold_values _ _ _ _ H) as [[]|H1]. exact H1.
Qed.

Lemma upper_keys_fold_length (d acc : dict (list PricePoint)) :
  (List.length (fold_left (fun a kv => dict_set (upper (fst kv)) (snd kv) a)
                          d acc)
   <= List.length acc + List.length d)%nat.
Proof.
  revert acc. induction d as [|[k v] d IH]; simpl; intros acc; [lia|].
  specialize (IH (dict_set (upper k) v acc)).
  pose proof (dict_set_length (upper k) v acc). lia.
Qed.

Lemma upper_keys_length d :
  (List.length (upper_keys d) <= List.length d)%nat.
Proof.
  apply (upper_keys_fold_length d []).
Qed.

Lemma upper_keys_timestamps d t :
  In t (all_timestamps (upper_keys d)) -> In t (all_timestamps d).
Proof.
  unfold all_timestamps. rewrite !in_flat_map.
  intros ([k ps] & Hin & Ht). simpl in Ht.
  destruct (upper_keys_values _ _ _ Hin) as (k' & Hk').
  exists (k', ps). auto.
Qed.

Lemma upper_keys_uppercase d k : In k (keys (upper_keys d)) -> upper k = k.
Proof.
  apply upper_keys_fixed. intros k' [].
Qed.

(* ================================================================== *)
(** * The union of the indexes *)

Lemma unique_In t l : In t (Pandas.unique l) <-> In t l.
Proof.
  induction l as [|x l IH]; simpl; [tauto|].
  rewrite filter_In, IH, negb_true_iff, Z.eqb_neq.
  destruct (Z.eq_dec x t); intuition congruence.
Qed.

Lemma unique_NoDup l : NoDup (Pandas.unique l).
Proof.
  induction l as [|x l IH]; simpl; constructor.
  - rewrite filter_In, negb_true_iff, Z.eqb_neq. tauto.
  - now apply NoDup_filter.
Qed.

Lemma insert_sorted_Permutation x l :
  Permutation (Pandas.insert_sorted x l) (x :: l).
Proof.
  induction l as [|y l IH]; simpl; [reflexivity|].
  destruct (x <=? y); [reflexivity|].
  rewrite IH. apply perm_swap.
Qed.

Lemma sort_values_Permutation l : Permutation (Pandas.sort_values l) l.
Proof.
  induction l as [|x l IH]; simpl; [reflexivity|].
  rewrite insert_sorted_Permutation. now constructor.
Qed.

Lemma sort_values_In t l : In t (Pandas.sort_values l) <-> In t l.
Proof.
  split; apply Permutation_in;
    [|symmetry]; apply sort_values_Permutation.
Qed.

(** The index of a frame built from Series without repeated labels: the
    labels of all the Series, each once. *)
Lemma union_indexes_spec (indexes : list (list Z)) :
  (forall i, In i indexes -> NoDup i) ->
  NoDup (Pandas.union_indexes indexes)
  /\ forall t, In t (Pandas.union_indexes indexes) <-> In t (List.concat indexes).
Proof.
  intros ND. destruct indexes as [|i0 [|i1 others]].
  - simpl. split; [constructor | tauto].
  - simpl. rewrite app_nil_r. split; [apply ND; simpl; auto | tauto].
  - set (rest := i1 :: others) in *.
    assert (Hu : Pandas.union_indexes (i0 :: rest)
                 = if forallb (Pandas.index_equals i0) rest then i0
                   else Pandas.sort_values
                          (Pandas.unique i0
                           ++ Pandas.unique
                                (filter (fun t => negb (Pandas.mem t (Pandas.unique i0)))
                                        (List.concat rest))))
      by reflexivity.
    rewrite Hu. clear Hu.
    change (List.concat (i0 :: rest)) with (i0 ++ List.concat rest)%list.
    destruct (forallb (Pandas.index_equals i0) rest) eqn:E.
    + split; [apply ND; simpl; auto|].
      intros t. rewrite in_app_iff. split; [auto|].
      intros [H|H]; [exact H|].
      apply in_concat in H. destruct H as (i & Hi & Ht).
      rewrite forallb_forall in E. apply E in Hi.
      apply index_equals_eq in Hi. now subst.
    + split.
      * eapply Permutation_NoDup;
          [symmetry; apply sort_values_Permutation|].
        apply NoDup_app.
        -- apply unique_NoDup.
        -- apply unique_NoDup.
        -- intros t H1 H2. apply (proj1 (unique_In _ _)) in H2.
           apply filter_In in H2.
           destruct H2 as [_ H2]. apply negb_true_iff in H2.
           apply mem_In in H1. congruence.
      * intros t.
        rewrite sort_values_In.
        rewrite !in_app_iff, !unique_In, filter_In, negb_true_iff.
        destruct (Pandas.mem t (Pandas.unique i0)) eqn:Em.
        -- apply mem_In in Em. apply (proj1 (unique_In _ _)) in Em. tauto.
        -- tauto.
Qed.

(* ================================================================== *)
(** * Alignment of regular columns *)

Lemma series_get_self s :
  NoDup (Pandas.series_index s) ->
  map (fun kv => Some (snd kv)) s
  = map (fun t => Pandas.series_get t s) (Pandas.series_index s).
Proof.
  unfold Pandas.series_index.
  induction s as [|[t0 v0] s IH]; simpl; intros ND; [reflexivity|].
  inversion ND as [|? ? Ht ND']; subst.
  rewrite Z.eqb_refl, (IH ND'). f_equal.
  apply map_ext_in. intros t Hin.
  destruct (Z.eqb_spec t t0) as [->|_]; [contradiction | reflexivity].
Qed.

Lemma reindex_aligned s idx :
  NoDup (Pandas.series_index s) ->
  Pandas.reindex s idx = Return (map (fun t => Pandas.series_get t s) idx).
Proof.
  intros ND. unfold Pandas.reindex.
  destruct (Pandas.index_equals (Pandas.series_index s) idx) eqn:E.
  - apply index_equals_eq in E. subst idx. now rewrite series_get_self.
  - now rewrite (proj2 (is_unique_NoDup _) ND).
Qed.

Lemma DataFrame_aligned (dd : dict Pandas.Series) :
  (forall c, In c dd -> NoDup (Pandas.series_index (snd c))) ->
  Pandas.DataFrame dd
  = let idx := Pandas.union_indexes
                 (map (fun kv => Pandas.series_index (snd kv)) dd) in
    Return (Pandas.mkFrame idx (map (aligned idx) dd)).
Proof.
  intros ND. destruct dd as [|c0 dd0]; [reflexivity|].
  unfold Pandas.DataFrame. cbv zeta.
  set (idx := Pandas.union_indexes _).
  rewrite (mapM_all _ (aligned idx)); [reflexivity|].
  intros c Hc. rewrite reindex_aligned by auto. reflexivity.
Qed.

Lemma melt_column_aligned idx name (h : Z -> option float) :
  Pandas.melt_column (map instant idx) name (map h idx)
  = map (fun t => mkPriceRow (instant t) name (h t)) idx.
Proof.
  induction idx as [|t idx IH]; simpl; [reflexivity | now rewrite IH].
Qed.

Lemma upper_not_time k : upper k = k -> k <> "time" /\ k <> "value".
Proof.
  intros H. split; intros ->; discriminate.
Qed.

(** On a response whose lists are all regular, the transform step returns
    the long table of the normalized mapping over the union of its
    timestamps. *)
Lemma transform_regular response :
  (forall k ps, In (k, ps) (data response) -> regular ps) ->
  let nd := upper_keys (data response) in
  let idx := Pandas.union_indexes (map (fun kv => timestamps (snd kv)) nd) in
  transform response = Return (long_table idx nd)
  /\ NoDup idx
  /\ forall t, In t idx <-> In t (all_timestamps nd).
Proof.
  intros Hreg nd idx.
  assert (Hnd : forall k ps, In (k, ps) nd -> regular ps).
  { intros k ps H. destruct (upper_keys_values _ _ _ H) as (k' & Hk'). eauto. }
  set (dd := map (fun kv => (fst kv, series_of (snd kv))) nd).
  assert (Hidx : map (fun kv => Pandas.series_index (snd kv)) dd
                 = map (fun kv => timestamps (snd kv)) nd).
  { unfold dd. rewrite map_map. apply map_ext. intros [k ps]. simpl.
    apply series_index_series_of. }
  destruct (union_indexes_spec (map (fun kv => timestamps (snd kv)) nd))
    as [NDidx Hin].
  { intros i Hi. apply in_map_iff in Hi. destruct Hi as ([k ps] & <- & Hk).
    apply (Hnd k ps Hk). }
  fold idx in NDidx, Hin.
  assert (Hall : forall t, In t idx <-> In t (all_timestamps nd)).
  { intros t. rewrite Hin. unfold all_timestamps.
    now rewrite flat_map_concat_map. }
  split; [|split; assumption].
  unfold transform.
  rewrite (convert_to_dataframe_steps _ dd idx (map (aligned idx) dd)).
  - f_equal. unfold long_table, dd. rewrite map_map.
    rewrite !flat_map_concat_map, map_map. f_equal.
    apply map_ext. intros [k ps]. unfold aligned. cbn [fst snd].
    apply melt_column_aligned.
  - change (data (normalize response)) with nd.
    rewrite fill_df_dict_unique_keys.
    + reflexivity.
    + apply upper_keys_NoDup.
    + intros k _ [].
    + intros k ps H. apply (Hnd k ps H).
  - rewrite DataFrame_aligned.
    + cbv zeta. now rewrite Hidx.
    + intros c Hc. unfold dd in Hc. apply in_map_iff in Hc.
      destruct Hc as ([k ps] & <- & Hk). cbn [snd fst].
      rewrite series_index_series_of. apply (Hnd k ps Hk).
  - intros t Ht. apply Hall in Ht. unfold all_timestamps in Ht.
    apply in_flat_map in Ht. destruct Ht as ([k ps] & Hk & Ht).
    apply (Hnd k ps Hk). exact Ht.
  - unfold dd. rewrite !map_map. cbn [aligned fst].
    intros H. apply in_map_iff in H. destruct H as (kv & E & Hk).
    assert (Hu : upper (fst kv) = fst kv)
      by (apply (upper_keys_uppercase (data response)); now apply in_map).
    apply upper_not_time in Hu. tauto.
  - unfold dd. rewrite !map_map. cbn [aligned fst].
    intros H. apply in_map_iff in H. destruct H as (kv & E & Hk).
    assert (Hu : upper (fst kv) = fst kv)
      by (apply (upper_keys_uppercase (data response)); now apply in_map).
    apply upper_not_time in Hu. tauto.
Qed.

(* ================================================================== *)
(** * The rows of the long table *)

Lemma instant_eqb a b : (ns (instant a) =? ns (instant b)) = (a =? b).
Proof.
  unfold instant. cbn [ns].
  destruct (Z.eqb_spec a b) as [->|N].
  - apply Z.eqb_refl.
  - apply Z.eqb_neq. lia.
Qed.

Lemma rows_at_other_region k k' T idx (h : Z -> option float) :
  k' <> k ->
  rows_at k T (map (fun t => mkPriceRow (instant t) k' (h t)) idx) = [].
Proof.
  intros N. unfold rows_at.
  induction idx as [|t idx IH]; simpl; [reflexivity|].
  destruct (String.eqb_spec k' k); [contradiction | exact IH].
Qed.

Lemma rows_at_absent_label k t idx (h : Z -> option float) :
  ~ In t idx ->
  rows_at k (instant t) (map (fun t' => mkPriceRow (instant t') k (h t')) idx)
  = [].
Proof.
  unfold rows_at. induction idx as [|t0 idx IH]; intros H; [reflexivity|].
  cbn [map filter area time]. rewrite String.eqb_refl, instant_eqb.
  destruct (Z.eqb_spec t0 t) as [->|_]; [exfalso; apply H; simpl; auto|].
  cbn [andb]. apply IH. intros Hin. apply H. simpl. auto.
Qed.

Lemma rows_at_region k t idx (h : Z -> option float) :
  NoDup idx ->
  In t idx ->
  rows_at k (instant t) (map (fun t' => mkPriceRow (instant t') k (h t')) idx)
  = [mkPriceRow (instant t) k (h t)].
Proof.
  induction idx as [|t0 idx IH]; intros ND H; [contradiction|].
  inversion ND as [|? ? H0 ND']; subst.
  unfold rows_at at 1.
  cbn [map filter area time]. rewrite String.eqb_refl, instant_eqb.
  fold (rows_at k (instant t)
          (map (fun t' => mkPriceRow (instant t') k (h t')) idx)).
  destruct (Z.eqb_spec t0 t) as [->|N]; cbn [andb].
  - now rewrite rows_at_absent_label.
  - destruct H as [H|H]; [contradiction | now apply IH].
Qed.

Lemma rows_at_app k T rows rows' :
  rows_at k T (rows ++ rows') = (rows_at k T rows ++ rows_at k T rows')%list.
Proof.
  apply filter_app.
Qed.

Lemma rows_at_long_table d idx k ps t :
  NoDup (keys d) ->
  NoDup idx ->
  In (k, ps) d ->
  In t idx ->
  rows_at k (instant t) (long_table idx d)
  = [mkPriceRow (instant t) k (Pandas.series_get t (series_of ps))].
Proof.
  intros NDk NDi. unfold long_table, keys.
  induction d as [|[k0 ps0] d IH]; intros Hk Ht; [contradiction|].
  inversion NDk as [|? ? H0 NDk']; subst.
  cbn [flat_map fst snd]. rewrite rows_at_app. destruct Hk as [Hk|Hk].
  - injection Hk as -> ->.
    rewrite (rows_at_region k t idx) by assumption.
    enough (E : forall d', ~ In k (map fst d') ->
              rows_at k (instant t)
                (flat_map (fun kv : string * list PricePoint =>
                   map (fun t0 => mkPriceRow (instant t0) (fst kv)
                          (Pandas.series_get t0 (series_of (snd kv)))) idx) d')
              = []) by now rewrite E.
    clear. induction d' as [|[k1 ps1] d' IH]; intros H; [reflexivity|].
    cbn [flat_map fst snd]. rewrite rows_at_app.
    rewrite rows_at_other_region, IH; simpl in *; tauto.
  - rewrite rows_at_other_region, IH; auto.
    intros ->. apply H0. change k with (fst (k, ps)). now apply in_map.
Qed.

Lemma long_table_length idx (d : dict (list PricePoint)) :
  List.length (long_table idx d) = (List.length d * List.length idx)%nat.
Proof.
  unfold long_table. induction d as [|kv d IH]; simpl; [reflexivity|].
  now rewrite length_app, length_map, IH.
Qed.

Lemma long_table_In idx (d : dict (list PricePoint)) r :
  In r (long_table idx d) ->
  In (area r) (keys d) /\ exists t, In t idx /\ time r = instant t.
Proof.
  unfold long_table. intros H. apply in_flat_map in H.
  destruct H as (kv & Hk & H). apply in_map_iff in H.
  destruct H as (t & <- & Ht). cbn [area time]. split.
  - now apply in_map.
  - eauto.
Qed.

Lemma series_get_None t ps :
  ~ In t (timestamps ps) -> Pandas.series_get t (series_of ps) = None.
Proof.
  induction ps as [|p ps IH]; simpl; intros H; [reflexivity|].
  destruct (Z.eqb_spec t (timestamp p)) as [->|N].
  - exfalso. apply H. auto.
  - apply IH. intros Hin. apply H. auto.
Qed.

Lemma series_get_Some p ps :
  NoDup (timestamps ps) ->
  In p ps ->
  Pandas.series_get (timestamp p) (series_of ps) = Some (price p).
Proof.
  induction ps as [|p0 ps IH]; simpl; intros ND H; [contradiction|].
  inversion ND as [|? ? H0 ND']; subst.
  destruct H as [->|H]; [now rewrite Z.eqb_refl|].
  destruct (Z.eqb_spec (timestamp p) (timestamp p0)) as [E|_]; [|auto].
  exfalso. apply H0. rewrite <- E. now apply in_map.
Qed.

Lemma distinct_timestamps_length idx d :
  NoDup idx ->
  (forall t, In t idx <-> In t (all_timestamps d)) ->
  List.length idx = List.length (distinct_timestamps d).
Proof.
  intros ND H. apply Permutation_length.
  apply NoDup_Permutation; [exact ND | apply NoDup_nodup|].
  intros t. unfold distinct_timestamps. now rewrite nodup_In.
Qed.

Lemma distinct_timestamps_incl d d' :
  (forall t, In t (all_timestamps d) -> In t (all_timestamps d')) ->
  (List.length (distinct_timestamps d)
   <= List.length (distinct_timestamps d'))%nat.
Proof.
  intros H. apply NoDup_incl_length; [apply NoDup_nodup|].
  intros t. unfold distinct_timestamps. rewrite !nodup_In. apply H.
Qed.

(* ================================================================== *)
(** * One row per region and timestamp *)

(** C1, as the code has it. For a response in which every region's list
    is non-empty, has no repeated timestamp and holds representable
    timestamps, the transform step returns a table with exactly one row for
    each pair of a region of the normalized mapping and a timestamp of the
    union of its regions' timestamps, and no other row; the row holds the
    region's price at that timestamp, or the missing value when the region
    has no point there. The table has N' x M' rows, N' the number of
    regions and M' the size of the union for the normalized mapping, which
    is at most N x M for the mapping as fetched. *)
Theorem transform_one_row_per_pair (response : PriceResponse) :
  (forall k ps, In (k, ps) (data response) -> regular ps) ->
  let nd := upper_keys (data response) in
  exists rows,
    transform response = Return rows
    /\ (forall k t,
           In k (keys nd) ->
           In t (all_timestamps nd) ->
           rows_at k (instant t) rows
           = [mkPriceRow (instant t) k (region_value nd k t)])
    /\ (forall r,
           In r rows ->
           In (area r) (keys nd)
           /\ exists t, In t (all_timestamps nd) /\ time r = instant t)
    /\ (forall k ps t,
           In (k, ps) nd -> ~ In t (timestamps ps) ->
           region_value nd k t = None)
    /\ (forall k ps p,
           In (k, ps) nd -> In p ps ->
           region_value nd k (timestamp p) = Some (price p))
    /\ List.length rows
       = (List.length nd * List.length (distinct_timestamps nd))%nat
    /\ (List.length rows
        <= List.length (data response)
           * List.length (distinct_timestamps (data response)))%nat.
Proof.
  intros Hreg nd.
  destruct (transform_regular response Hreg) as (Ht & NDi & Hin).
  fold nd in Ht, NDi, Hin.
  set (idx := Pandas.union_indexes (map (fun kv => timestamps (snd kv)) nd))
    in *.
  pose proof (upper_keys_NoDup (data response)) as NDk. fold nd in NDk.
  assert (Hlen : List.length (long_table idx nd)
                 = (List.length nd * List.length (distinct_timestamps nd))%nat).
  { rewrite long_table_length. f_equal.
    now apply distinct_timestamps_length. }
  exists (long_table idx nd). split; [exact Ht|].
  split; [|split; [|split; [|split; [|split]]]].
  - intros k t Hk Htt. destruct (keys_In _ _ Hk) as (ps & Hps).
    unfold region_value. rewrite (dict_get_In _ _ _ NDk Hps).
    apply rows_at_long_table; auto. now apply Hin.
  - intros r Hr. destruct (long_table_In _ _ _ Hr) as (Ha & t & Hti & E).
    split; [exact Ha|]. exists t. split; [now apply Hin | exact E].
  - intros k ps t Hps Hn. unfold region_value.
    rewrite (dict_get_In _ _ _ NDk Hps). now apply series_get_None.
  - intros k ps p Hps Hp. unfold region_value.
    rewrite (dict_get_In _ _ _ NDk Hps). apply series_get_Some; auto.
    destruct (upper_keys_values _ _ _ Hps) as (k' & Hk').
    apply (Hreg k' ps Hk').
  - exact Hlen.
  - rewrite Hlen. apply Nat.mul_le_mono.
    + apply upper_keys_length.
    + apply distinct_timestamps_incl. apply upper_keys_timestamps.
Qed.

Lemma transform_one_row_per_pair_witness :
  (forall k ps,
      In (k, ps)
         [("ee", [mkPricePoint 1700000000 45.2%float;
                  mkPricePoint 1700003600 50%float]);
          ("fi", [mkPricePoint 1700003600 61.5%float])] ->
      regular ps)
  /\ exists rows,
       transform
         (mkPriceResponse true
            [("ee", [mkPricePoint 1700000000 45.2%float;
                     mkPricePoint 1700003600 50%float]);
             ("fi", [mkPricePoint 1700003600 61.5%float])])
       = Return rows
       /\ List.length rows = 4%nat
       /\ rows_at "FI" (instant 1700000000) rows
          = [mkPriceRow (instant 1700000000) "FI" None].
Proof.
  assert (Hreg : forall k ps,
             In (k, ps)
                [("ee", [mkPricePoint 1700000000 45.2%float;
                         mkPricePoint 1700003600 50%float]);
                 ("fi", [mkPricePoint 1700003600 61.5%float])] ->
             regular ps).
  { intros k ps [H|[H|[]]]; injection H as <- <-;
      (split; [discriminate|]); split.
    - repeat constructor; simpl; intuition discriminate.
    - intros t [<-|[<-|[]]]; reflexivity.
    - repeat constructor; simpl; intuition discriminate.
    - intros t [<-|[]]; reflexivity. }
  split; [exact Hreg|].
  destruct (transform_one_row_per_pair
              (mkPriceResponse true
                 [("ee", [mkPricePoint 1700000000 45.2%float;
                          mkPricePoint 1700003600 50%float]);
                  ("fi", [mkPricePoint 1700003600 61.5%float])]) Hreg)
    as (rows & Ht & Hp & _ & _ & _ & Hl & _).
  exists rows. split; [exact Ht|]. split; [exact Hl|].
  apply (Hp "FI" 1700000000).
  - simpl. right. left. reflexivity.
  - simpl. left. reflexivity.
Defined.

(** C1, as stated, fails: one region with two entries at one timestamp
    (N = 1, M = 1) gives a table of two rows. *)
Lemma repeated_timestamp_exceeds_bound :
  exists rows,
    transform
      (mkPriceResponse true
         [("ee", [mkPricePoint 1700000000 45.2%float;
                  mkPricePoint 1700000000 50%float])])
    = Return rows
    /\ ~ (List.length rows
          <= List.length [("ee", [mkPricePoint 1700000000 45.2%float;
                                  mkPricePoint 1700000000 50%float])]
             * List.length
                 (distinct_timestamps
                    [("ee", [mkPricePoint 1700000000 45.2%float;
                             mkPricePoint 1700000000 50%float])]))%nat
    /\ List.length (rows_at "EE" (instant 1700000000) rows) = 2%nat.
Proof.
  eexists. split; [vm_compute; reflexivity|].
  split; [vm_compute; lia | reflexivity].
Qed.

(* ================================================================== *)
(** * The table against the fetched mapping *)

Lemma union_indexes_In (indexes : list (list Z)) t :
  In t (Pandas.union_indexes indexes) <-> In t (List.concat indexes).
Proof.
  destruct indexes as [|i0 [|i1 others]].
  - simpl. tauto.
  - simpl. rewrite app_nil_r. tauto.
  - set (rest := i1 :: others).
    assert (Hu : Pandas.union_indexes (i0 :: rest)
                 = if forallb (Pandas.index_equals i0) rest then i0
                   else Pandas.sort_values
                          (Pandas.unique i0
                           ++ Pandas.unique
                                (filter (fun t => negb (Pandas.mem t (Pandas.unique i0)))
                                        (List.concat rest))))
      by reflexivity.
    rewrite Hu. clear Hu.
    change (List.concat (i0 :: rest)) with (i0 ++ List.concat rest)%list.
    rewrite in_app_iff.
    destruct (forallb (Pandas.index_equals i0) rest) eqn:E.
    + split; [auto|]. intros [H|H]; [exact H|].
      apply in_concat in H. destruct H as (i & Hi & Ht).
      rewrite forallb_forall in E. apply E in Hi.
      apply index_equals_eq in Hi. now subst.
    + rewrite sort_values_In, in_app_iff, !unique_In, filter_In, negb_true_iff.
      destruct (Pandas.mem t (Pandas.unique i0)) eqn:Em.
      * apply mem_In in Em. apply (proj1 (unique_In _ _)) in Em. tauto.
      * tauto.
Qed.

Lemma DataFrame_index dd df :
  Pandas.DataFrame dd = Return df ->
  Pandas.index df
  = Pandas.union_indexes (map (fun kv => Pandas.series_index (snd kv)) dd).
Proof.
  unfold Pandas.DataFrame. destruct dd as [|kv0 dd0].
  - intros H. now injection H as <-.
  - destruct (mapM _ (kv0 :: dd0)) as [cols|e]; simpl; [|discriminate].
    intros H. now injection H as <-.
Qed.

(** The two ways a Series gets aligned. *)
Lemma reindex_inv s idx col :
  Pandas.reindex s idx = Return col ->
  (idx = Pandas.series_index s /\ col = map (fun kv => Some (snd kv)) s)
  \/ (NoDup (Pandas.series_index s)
      /\ col = map (fun t => Pandas.series_get t s) idx).
Proof.
  unfold Pandas.reindex.
  destruct (Pandas.index_equals (Pandas.series_index s) idx) eqn:E.
  - apply index_equals_eq in E. intros H. injection H as <-. auto.
  - destruct (Pandas.is_unique (Pandas.series_index s)) eqn:U; [|discriminate].
    apply is_unique_NoDup in U. intros H. injection H as <-. auto.
Qed.

Lemma Forall2_In_right {A B : Type} (R : A -> B -> Prop) l l' y :
  Forall2 R l l' -> In y l' -> exists x, In x l /\ R x y.
Proof.
  induction 1 as [|a b l l' Hab _ IH]; simpl; [contradiction|].
  intros [<-|H]; [eauto|].
  destruct (IH H) as (x & Hx & Hr). eauto.
Qed.

Lemma series_get_In t v ps :
  Pandas.series_get t (series_of ps) = Some v ->
  exists p, In p ps /\ timestamp p = t /\ price p = v.
Proof.
  induction ps as [|p ps IH]; simpl; [discriminate|].
  destruct (Z.eqb_spec t (timestamp p)) as [->|_].
  - intros H. injection H as <-. eauto.
  - intros H. destruct (IH H) as (q & Hq & E). eauto.
Qed.

Lemma series_get_absent t ps :
  Pandas.series_get t (series_of ps) = None -> ~ In t (timestamps ps).
Proof.
  induction ps as [|p ps IH]; simpl; [tauto|].
  destruct (Z.eqb_spec t (timestamp p)) as [->|N]; [discriminate|].
  intros H [E|Hin]; [congruence | now apply IH].
Qed.

Lemma all_timestamps_In (d : dict (list PricePoint)) k ps t :
  In (k, ps) d -> In t (timestamps ps) -> In t (all_timestamps d).
Proof.
  intros Hk Ht. unfold all_timestamps. apply in_flat_map.
  exists (k, ps). auto.
Qed.

Lemma Forall2_map_left {A A' B : Type} (f : A -> A') (R : A' -> B -> Prop)
      (l : list A) (l' : list B) :
  Forall2 R (map f l) l' -> Forall2 (fun x y => R (f x) y) l l'.
Proof.
  revert l'. induction l as [|x l IH]; intros l' H; inversion H; subst;
    constructor; auto.
Qed.

(** What the transform step went through when it returns: the Series of
    the normalized mapping, aligned on the union of their labels. *)
Lemma transform_inv response rows :
  transform response = Return rows ->
  let nd := upper_keys (data response) in
  exists idx cols,
    rows = flat_map
             (fun c => Pandas.melt_column (map instant idx) (fst c) (snd c))
             cols
    /\ (forall t, In t idx <-> In t (all_timestamps nd))
    /\ Forall2 (fun kv c =>
                  fst c = fst kv
                  /\ Pandas.reindex (series_of (snd kv)) idx = Return (snd c))
               nd cols.
Proof.
  intros H nd. unfold transform in H.
  destruct (convert_to_dataframe_inv _ _ H)
    as (dd & df & times & Hf & Hd & Ht & ->).
  change (data (normalize response)) with nd in Hf.
  pose proof (fill_df_dict_series _ _ (upper_keys_NoDup _) Hf) as ->.
  apply to_datetime_inv in Ht. subst times.
  exists (Pandas.index df), (Pandas.columns df). split; [reflexivity|]. split.
  - intros t. rewrite (DataFrame_index _ _ Hd), union_indexes_In.
    rewrite map_map. unfold all_timestamps. rewrite flat_map_concat_map.
    cbn [snd].
    erewrite map_ext; [reflexivity|].
    intros [k ps]. cbn [snd]. apply series_index_series_of.
  - exact (Forall2_map_left
             (fun kv : string * list PricePoint => (fst kv, series_of (snd kv)))
             (fun kv c =>
                fst c = fst kv
                /\ Pandas.reindex (snd kv) (Pandas.index df) = Return (snd c))
             _ _ (DataFrame_columns _ _ Hd)).
Qed.

(** X1. Every row of the transformed table comes from the fetched data.
    On a mapping whose timestamps are representable instants and whose
    prices are numbers, its area is a region of the normalized mapping,
    its time is the instant of a timestamp of that mapping, and its value
    is the price of a point of that region at that timestamp, or is
    missing, only when the region has no point there. *)
Theorem transform_rows_from_input response rows r :
  plain_points (upper_keys (data response)) ->
  transform response = Return rows ->
  In r rows ->
  exists ps t,
    In (area r, ps) (upper_keys (data response))
    /\ In t (all_timestamps (upper_keys (data response)))
    /\ time r = instant t
    /\ match value r with
       | Some v => exists p, In p ps /\ timestamp p = t /\ price p = v
       | None => ~ In t (timestamps ps)
       end.
Proof.
  intros _ H Hr.
  destruct (transform_inv _ _ H) as (idx & cols & -> & Hidx & HC).
  apply in_flat_map in Hr. destruct Hr as ([name col] & Hc & Hr).
  destruct (Forall2_In_right _ _ _ _ HC Hc) as ([k ps] & Hk & Hn & Hre).
  cbn [fst snd] in *. subst name.
  exists ps.
  destruct (reindex_inv _ _ _ Hre) as [[Ei Ec]|[ND Ec]]; subst col.
  - rewrite series_index_series_of in Ei. subst idx.
    rewrite melt_column_series_of in Hr. apply in_map_iff in Hr.
    destruct Hr as (p & <- & Hp). exists (timestamp p).
    unfold row_of. cbn [area time value].
    repeat split; auto.
    + eapply all_timestamps_In; eauto. now apply in_map.
    + exists p. auto.
  - rewrite melt_column_aligned in Hr. apply in_map_iff in Hr.
    destruct Hr as (t & <- & Ht). exists t. cbn [area time value].
    repeat split; auto.
    + now apply Hidx.
    + destruct (Pandas.series_get t (series_of ps)) as [v|] eqn:E.
      * now apply series_get_In.
      * now apply series_get_absent.
Qed.

Lemma transform_rows_from_input_witness :
  plain_points (upper_keys [("ee", [mkPricePoint 1700000000 45.2%float])])
  /\ exists ps t,
       In ("EE", ps)
          (upper_keys [("ee", [mkPricePoint 1700000000 45.2%float])])
       /\ In t (all_timestamps
                  (upper_keys [("ee", [mkPricePoint 1700000000 45.2%float])]))
       /\ utc 2023 11 14 22 13 20 = instant t
       /\ exists p, In p ps /\ timestamp p = t /\ price p = 45.2%float.
Proof.
  assert (Hp : plain_points
                 (upper_keys [("ee", [mkPricePoint 1700000000 45.2%float])])).
  { intros k ps p [H|[]]. injection H as <- <-.
    intros [<-|[]]. split; reflexivity. }
  split; [exact Hp|].
  apply (transform_rows_from_input
           (mkPriceResponse true [("ee", [mkPricePoint 1700000000 45.2%float])])
           [mkPriceRow (utc 2023 11 14 22 13 20) "EE" (Some 45.2%float)]
           (mkPriceRow (utc 2023 11 14 22 13 20) "EE" (Some 45.2%float))).
  - exact Hp.
  - vm_compute. reflexivity.
  - simpl. left. reflexivity.
Defined.

(** X2. No price point is lost: on a mapping whose timestamps are
    representable instants and whose prices are numbers, when the
    transform step returns, every price point of every region of the
    normalized mapping has its row in the table, with its own price,
    repeated timestamps included. *)
Theorem transform_keeps_every_point response rows k ps p :
  plain_points (upper_keys (data response)) ->
  transform response = Return rows ->
  In (k, ps) (upper_keys (data response)) ->
  In p ps ->
  In (row_of k p) rows.
Proof.
  intros _ H Hk Hp.
  destruct (transform_inv _ _ H) as (idx & cols & -> & Hidx & HC).
  destruct (Forall2_In_left _ _ _ _ HC Hk) as ([name col] & Hc & Hn & Hre).
  cbn [fst snd] in *. subst name.
  apply in_flat_map. exists (k, col). split; [exact Hc|]. cbn [fst snd].
  destruct (reindex_inv _ _ _ Hre) as [[Ei Ec]|[ND Ec]]; subst col.
  - rewrite series_index_series_of in Ei. subst idx.
    rewrite melt_column_series_of. now apply in_map.
  - rewrite melt_column_aligned. apply in_map_iff.
    exists (timestamp p). split.
    + unfold row_of. f_equal. apply series_get_Some; auto.
      now rewrite <- series_index_series_of.
    + apply Hidx. eapply all_timestamps_In; eauto. now apply in_map.
Qed.

Lemma transform_keeps_every_point_witness :
  plain_points
    (upper_keys [("ee", [mkPricePoint 1700000000 45.2%float;
                         mkPricePoint 1700000000 50%float])])
  /\ In (row_of "EE" (mkPricePoint 1700000000 50%float))
        [mkPriceRow (utc 2023 11 14 22 13 20) "EE" (Some 45.2%float);
         mkPriceRow (utc 2023 11 14 22 13 20) "EE" (Some 50%float)].
Proof.
  assert (Hp : plain_points
                 (upper_keys [("ee", [mkPricePoint 1700000000 45.2%float;
                                      mkPricePoint 1700000000 50%float])])).
  { intros k ps p [H|[]]. injection H as <- <-.
    intros [<-|[<-|[]]]; split; reflexivity. }
  split; [exact Hp|].
  apply (transform_keeps_every_point
           (mkPriceResponse true
              [("ee", [mkPricePoint 1700000000 45.2%float;
                       mkPricePoint 1700000000 50%float])])
           _ "EE"
           [mkPricePoint 1700000000 45.2%float;
            mkPricePoint 1700000000 50%float]).
  - exact Hp.
  - vm_compute. reflexivity.
  - simpl. left. reflexivity.
  - simpl. right. left. reflexivity.
Defined.

(* ================================================================== *)
(** * More on the normalization of the region codes *)

Lemma upper_keys_fold_distinct (d acc : dict (list PricePoint)) :
  NoDup (map upper (keys d)) ->
  (forall k, In k (keys d) -> ~ In (upper k) (keys acc)) ->
  fold_left (fun a kv => dict_set (upper (fst kv)) (snd kv) a) d acc
  = (acc ++ map (fun kv => (upper (fst kv), snd kv)) d)%list.
Proof.
  revert acc. induction d as [|[k v] d IH]; simpl; intros acc ND Hd.
  - now rewrite app_nil_r.
  - inversion ND as [|? ? Hk ND']; subst.
    rewrite dict_set_new by (apply Hd; auto).
    rewrite IH; auto.
    + now rewrite <- app_assoc.
    + intros k' Hk'. unfold keys. rewrite map_app, in_app_iff. simpl.
      intros [H|[H|[]]].
      * apply (Hd k'); auto.
      * apply Hk. rewrite H. now apply in_map.
Qed.

(** X3. When the region keys stay distinct after upper-casing, the
    normalization of [main] only rewrites the keys: every region keeps its
    list and its place in the mapping. *)
Theorem upper_keys_without_collision (d : dict (list PricePoint)) :
  NoDup (map upper (keys d)) ->
  upper_keys d = map (fun kv => (upper (fst kv), snd kv)) d.
Proof.
  intros ND. unfold upper_keys.
  rewrite upper_keys_fold_distinct; auto.
Qed.

Lemma upper_keys_without_collision_witness :
  NoDup (map upper (keys [("ee", [mkPricePoint 1700000000 45.2%float]);
                          ("fi", [mkPricePoint 1700000000 61.5%float])]))
  /\ upper_keys [("ee", [mkPricePoint 1700000000 45.2%float]);
                 ("fi", [mkPricePoint 1700000000 61.5%float])]
     = [("EE", [mkPricePoint 1700000000 45.2%float]);
        ("FI", [mkPricePoint 1700000000 61.5%float])].
Proof.
  assert (H : NoDup (map upper
                         (keys [("ee", [mkPricePoint 1700000000 45.2%float]);
                                ("fi", [mkPricePoint 1700000000 61.5%float])]))).
  { repeat constructor; simpl; intuition discriminate. }
  split; [exact H|].
  exact (upper_keys_without_collision _ H).
Defined.

(** X4. Normalizing twice is normalizing once: [upper_keys] leaves a
    normalized mapping as it is, so the transform step gives the same
    result on a response and on its normalized form. *)
Theorem upper_keys_idempotent (response : PriceResponse) :
  upper_keys (upper_keys (data response)) = upper_keys (data response)
  /\ transform (normalize response) = transform response.
Proof.
  assert (E : upper_keys (upper_keys (data response))
              = upper_keys (data response)).
  { set (nd := upper_keys (data response)).
    assert (Hfix : forall kv, In kv nd -> (upper (fst kv), snd kv) = kv).
    { intros [k v] Hin. cbn [fst snd]. f_equal.
      apply (upper_keys_uppercase (data response)).
      change k with (fst (k, v)). now apply in_map. }
    unfold upper_keys at 1. rewrite upper_keys_fold_distinct.
    - simpl. rewrite (map_ext_in _ (fun kv => kv) _ Hfix). apply map_id.
    - replace (map upper (keys nd)) with (keys nd);
        [apply upper_keys_NoDup|].
      unfold keys. rewrite map_map. apply map_ext_in.
      intros kv Hin. now rewrite <- (Hfix kv Hin) at 1.
    - intros k _ []. }
  split; [exact E|].
  unfold transform, normalize. cbn [data success]. now rewrite E.
Qed.

(* ================================================================== *)
(** * The layout of the long table *)

Lemma rows_of_area_map_same idx k (h : Z -> option float) :
  rows_of_area k (map (fun t => mkPriceRow (instant t) k (h t)) idx)
  = map (fun t => mkPriceRow (instant t) k (h t)) idx.
Proof.
  unfold rows_of_area. induction idx as [|t idx IH]; [reflexivity|].
  cbn [map filter area]. now rewrite String.eqb_refl, IH.
Qed.

Lemma rows_of_area_map_other idx k k' (h : Z -> option float) :
  k' <> k ->
  rows_of_area k (map (fun t => mkPriceRow (instant t) k' (h t)) idx) = [].
Proof.
  intros N. unfold rows_of_area. induction idx as [|t idx IH]; [reflexivity|].
  cbn [map filter area].
  destruct (String.eqb_spec k' k); [contradiction | exact IH].
Qed.

Lemma rows_of_area_long_table d idx k ps :
  NoDup (keys d) ->
  In (k, ps) d ->
  rows_of_area k (long_table idx d)
  = map (fun t => mkPriceRow (instant t) k
                             (Pandas.series_get t (series_of ps)))
        idx.
Proof.
  unfold long_table, keys.
  induction d as [|[k0 ps0] d IH]; intros ND Hk; [contradiction|].
  inversion ND as [|? ? H0 ND']; subst.
  cbn [flat_map fst snd]. rewrite rows_of_area_app. destruct Hk as [Hk|Hk].
  - injection Hk as -> ->. rewrite rows_of_area_map_same.
    enough (E : forall d', ~ In k (map fst d') ->
              rows_of_area k
                (flat_map (fun kv : string * list PricePoint =>
                   map (fun t => mkPriceRow (instant t) (fst kv)
                          (Pandas.series_get t (series_of (snd kv)))) idx) d')
              = []) by (rewrite E by exact H0; apply app_nil_r).
    induction d' as [|[k1 ps1] d' IH']; intros H; [reflexivity|].
    cbn [flat_map fst snd]. rewrite rows_of_area_app.
    rewrite rows_of_area_map_other, IH'; simpl in *; tauto.
  - rewrite rows_of_area_map_other, IH; auto.
    intros ->. apply H0. change k with (fst (k, ps)). now apply in_map.
Qed.

Lemma long_table_areas idx (d : dict (list PricePoint)) :
  map area (long_table idx d)
  = flat_map (fun k => repeat k (List.length idx)) (keys d).
Proof.
  unfold long_table, keys.
  induction d as [|[k ps] d IH]; [reflexivity|].
  cbn [flat_map map fst snd]. rewrite map_app, IH. f_equal.
  rewrite map_map. cbn [area]. clear.
  induction idx as [|t idx IH]; simpl; congruence.
Qed.

(** X5. For a response whose lists are all regular, the table is laid out
    region by region, in the order of the normalized mapping, and every
    region has the same column of times: as many rows as the union of the
    timestamps has elements. *)
Theorem transform_groups_rows_by_region (response : PriceResponse) :
  (forall k ps, In (k, ps) (data response) -> regular ps) ->
  let nd := upper_keys (data response) in
  exists rows times,
    transform response = Return rows
    /\ map area rows
       = flat_map (fun k => repeat k (List.length times)) (keys nd)
    /\ (forall k, In k (keys nd) -> map time (rows_of_area k rows) = times)
    /\ List.length times = List.length (distinct_timestamps nd).
Proof.
  intros Hreg nd.
  destruct (transform_regular response Hreg) as (Ht & NDi & Hin).
  fold nd in Ht, NDi, Hin.
  set (idx := Pandas.union_indexes (map (fun kv => timestamps (snd kv)) nd))
    in *.
  exists (long_table idx nd), (map instant idx).
  split; [exact Ht|]. split; [|split].
  - rewrite length_map. apply long_table_areas.
  - intros k Hk. destruct (keys_In _ _ Hk) as (ps & Hps).
    rewrite (rows_of_area_long_table nd idx k ps);
      [|apply upper_keys_NoDup | exact Hps].
    rewrite map_map. reflexivity.
  - rewrite length_map. now apply distinct_timestamps_length.
Qed.

Lemma transform_groups_rows_by_region_witness :
  (forall k ps,
      In (k, ps)
         [("ee", [mkPricePoint 1700003600 50%float;
                  mkPricePoint 1700000000 45.2%float]);
          ("fi", [mkPricePoint 1700003600 61.5%float])] ->
      regular ps)
  /\ exists rows,
       transform
         (mkPriceResponse true
            [("ee", [mkPricePoint 1700003600 50%float;
                     mkPricePoint 1700000000 45.2%float]);
             ("fi", [mkPricePoint 1700003600 61.5%float])])
       = Return rows
       /\ map area rows = ["EE"; "EE"; "FI"; "FI"].
Proof.
  assert (Hreg : forall k ps,
             In (k, ps)
                [("ee", [mkPricePoint 1700003600 50%float;
                         mkPricePoint 1700000000 45.2%float]);
                 ("fi", [mkPricePoint 1700003600 61.5%float])] ->
             regular ps).
  { intros k ps [H|[H|[]]]; injection H as <- <-;
      (split; [discriminate|]); split.
    - repeat constructor; simpl; intuition discriminate.
    - intros t [<-|[<-|[]]]; reflexivity.
    - repeat constructor; simpl; intuition discriminate.
    - intros t [<-|[]]; reflexivity. }
  split; [exact Hreg|].
  destruct (transform_groups_rows_by_region
              (mkPriceResponse true
                 [("ee", [mkPricePoint 1700003600 50%float;
                          mkPricePoint 1700000000 45.2%float]);
                  ("fi", [mkPricePoint 1700003600 61.5%float])]) Hreg)
    as (rows & times & Ht & Ha & _ & Hl).
  exists rows. split; [exact Ht|].
  rewrite Ha, Hl. reflexivity.
Defined.

(* ================================================================== *)
(** * Traces of the exporters *)

Lemma bindM_Return {A B : Type} tr (a : A) (k : A -> M B) :
  bindM (tr, Return a) k = ((tr ++ trace (k a))%list, outcome (k a)).
Proof.
  unfold bindM, trace, outcome. now destruct (k a).
Qed.

Lemma bindM_Raise {A B : Type} tr e (k : A -> M B) :
  bindM (tr, Raise e) k = (tr, Raise e).
Proof.
  reflexivity.
Qed.

Lemma files_written_app tr tr' :
  files_written (tr ++ tr') = (files_written tr ++ files_written tr')%list.
Proof.
  induction tr as [|[l msg|fmt f rows|req] tr IH]; simpl; congruence.
Qed.

Lemma format_of_supported filename :
  supported filename
  = match format_of filename with Some _ => true | None => false end.
Proof.
  unfold supported, format_of.
  destruct (String.eqb _ ".parquet"); [reflexivity|].
  destruct (String.eqb _ ".csv"); [reflexivity|].
  destruct (String.eqb _ ".xlsx"); reflexivity.
Qed.

(** The three ways [save_to_file] ends. *)
Lemma save_to_file_cases fs df filename :
  match format_of filename with
  | None =>
      save_to_file fs df filename
      = ([Log WARNING (skip_warning filename)], Return tt)
  | Some fmt =>
      match fs fmt filename with
      | None =>
          exists msg,
            save_to_file fs df filename
            = ([FileWritten fmt filename df; Log INFO msg], Return tt)
      | Some e => save_to_file fs df filename = ([], Raise e)
      end
  end.
Proof.
  unfold format_of, save_to_file, skip_warning, write_file.
  destruct (String.eqb _ ".parquet").
  { destruct (fs Parquet filename); simpl; eauto. }
  destruct (String.eqb _ ".csv").
  { destruct (fs Csv filename); simpl; eauto. }
  destruct (String.eqb _ ".xlsx").
  { destruct (fs Excel filename); simpl; eauto. }
  reflexivity.
Qed.

(** Whatever the file system answers, the loop over the output paths
    writes only the given table, in the format of each name, and sends
    nothing. *)
Lemma save_loop_trace fs df measurement filenames :
  Forall (exports df measurement)
         (trace (for_each (save_to_file fs df) filenames))
  /\ network_calls (trace (for_each (save_to_file fs df) filenames)) = [].
Proof.
  induction filenames as [|f fl [IHe IHn]]; [split; constructor|].
  cbn [for_each].
  pose proof (save_to_file_cases fs df f) as Hc.
  destruct (format_of f) as [fmt|] eqn:Ef.
  - destruct (fs fmt f) as [e|].
    + rewrite Hc. rewrite bindM_Raise. split; constructor.
    + destruct Hc as (msg & ->). rewrite bindM_Return. cbn [trace fst].
      split.
      * constructor; [simpl; auto|]. constructor; [exact I | exact IHe].
      * simpl. exact IHn.
  - rewrite Hc, bindM_Return. cbn [trace fst]. split.
    + constructor; [exact I | exact IHe].
    + simpl. exact IHn.
Qed.

Lemma complete_inv p :
  missing p = false ->
  exists url token org bucket,
    p = Influxdb.mkParams (Some url) (Some token) (Some org) (Some bucket).
Proof.
  destruct p as [[u|] [t|] [o|] [b|]]; simpl; try discriminate.
  intros _. eauto.
Qed.

(** The whole of [write_dataframe_to_influxdb] when the four parameters
    are present. *)
Lemma write_dataframe_complete
      argv environ server df m tags fields url token org bucket :
  Influxdb.parse_known_args argv environ
  = Influxdb.mkParams (Some url) (Some token) (Some org) (Some bucket) ->
  let req := mkInfluxRequest url token org bucket (Influxdb.points df)
                             m tags fields in
  exists msgs,
    Influxdb.write_dataframe_to_influxdb argv environ server df m tags fields
    = (([Log INFO "Got InfluxDB parameters"; Log INFO "Write DataFrame";
         Log DEBUG "df"]
        ++ match Influxdb.points df with
           | [] => []
           | _ :: _ => [NetworkCall req]
           end
        ++ msgs)%list,
       match Influxdb.points df with
       | [] => Return true
       | _ :: _ =>
           match server req with
           | None => Return true
           | Some e => if handled e then Return false else Raise e
           end
       end)
    /\ network_calls msgs = []
    /\ files_written msgs = []
    /\ Forall (exports df m) msgs.
Proof.
  intros Hp req. unfold Influxdb.write_dataframe_to_influxdb.
  rewrite (write_dataframe_body_complete _ _ _ _ _ _ _ _ _ _ _ Hp).
  subst req. destruct (Influxdb.points df) as [|p ps].
  { exists []. repeat split; constructor. }
  cbv zeta.
  destruct (server _) as [e|].
  - unfold handled. destruct (isinstance e "ApiException").
    + destruct (match exn_status e with Some s => s =? 401 | None => false end);
        eexists; (split; [reflexivity|]); repeat split; repeat constructor.
    + simpl orb.
      destruct (isinstance e "ValueError" || isinstance e "TypeError"
                || isinstance e "RuntimeError").
      * eexists; (split; [reflexivity|]); repeat split; repeat constructor.
      * exists []. repeat split; constructor.
  - exists []. repeat split; constructor.
Qed.

(** Whatever the parameters and the database answer, the writer sends at
    most one request, for the given table, and writes no file. *)
Lemma influx_trace argv environ server df m :
  Forall (exports df m)
         (trace (Influxdb.write_dataframe_to_influxdb
                   argv environ server df m ["area"] ["value"]))
  /\ (List.length
        (network_calls
           (trace (Influxdb.write_dataframe_to_influxdb
                     argv environ server df m ["area"] ["value"]))) <= 1)%nat
  /\ files_written
       (trace (Influxdb.write_dataframe_to_influxdb
                 argv environ server df m ["area"] ["value"])) = [].
Proof.
  destruct (missing (Influxdb.parse_known_args argv environ)) eqn:Em.
  - rewrite (write_dataframe_missing _ _ _ _ _ _ _ Em). simpl.
    repeat split; auto. repeat constructor.
  - destruct (complete_inv _ Em) as (url & token & org & bucket & Hp).
    destruct (write_dataframe_complete _ _ server df m ["area"] ["value"]
                _ _ _ _ Hp) as (msgs & -> & Hn & Hf & He).
    cbn [trace fst].
    rewrite !network_calls_app, !files_written_app, Hn, Hf.
    destruct (Influxdb.points df) as [|p ps] eqn:Ep.
    + simpl. repeat split; auto.
      repeat (constructor; [simpl; auto|]). exact He.
    + simpl. repeat split; auto.
      repeat (constructor; [simpl; auto|]). exact He.
Qed.

(** [main] on a successful response whose transform returns [rows]. *)
Lemma main_with_table args fetched fs argv environ server rows :
  success fetched = true ->
  transform fetched = Return rows ->
  main args fetched fs argv environ server
  = (_ <~ log INFO "df" ;;
     _ <~ match output_filename args with
          | Some (f :: fl) => for_each (save_to_file fs rows) (f :: fl)
          | _ => ret tt
          end ;;
     _ <~ Influxdb.write_dataframe_to_influxdb argv environ server rows
            (influxdb_measurement args) ["area"] ["value"] ;;
     ret tt).
Proof.
  intros Hs Ht. unfold main.
  change (success (normalize fetched)) with (success fetched). rewrite Hs.
  unfold transform in Ht. rewrite Ht. unfold lift. rewrite bindM_Return.
  cbn [app]. now destruct (bindM _ _).
Qed.

Lemma main_without_success args fetched fs argv environ server :
  success fetched = false ->
  main args fetched fs argv environ server
  = ([Log ERROR "Failed to fetch data"], Return tt).
Proof.
  intros Hs. unfold main.
  change (success (normalize fetched)) with (success fetched). now rewrite Hs.
Qed.

Lemma main_transform_raises args fetched fs argv environ server e :
  success fetched = true ->
  transform fetched = Raise e ->
  main args fetched fs argv environ server = ([], Raise e).
Proof.
  intros Hs Ht. unfold main.
  change (success (normalize fetched)) with (success fetched). rewrite Hs.
  unfold transform in Ht. now rewrite Ht.
Qed.

(** The trace of a successful run: the log record, then the events of the
    file loop, then, if no write failed, those of the database writer. *)
Lemma main_trace args fetched fs argv environ server rows :
  success fetched = true ->
  transform fetched = Return rows ->
  exists files db,
    trace (main args fetched fs argv environ server)
    = (Log INFO "df" :: files ++ db)%list
    /\ Forall (exports rows (influxdb_measurement args)) files
    /\ network_calls files = []
    /\ Forall (exports rows (influxdb_measurement args)) db
    /\ (List.length (network_calls db) <= 1)%nat
    /\ files_written db = [].
Proof.
  intros Hs Ht. rewrite (main_with_table _ _ _ _ _ _ _ Hs Ht).
  unfold log. rewrite bindM_Return.
  set (files := match output_filename args with
                | Some (f :: fl) => for_each (save_to_file fs rows) (f :: fl)
                | _ => ret tt
                end).
  assert (Hfiles : Forall (exports rows (influxdb_measurement args))
                          (trace files)
                   /\ network_calls (trace files) = []).
  { unfold files. destruct (output_filename args) as [[|f fl]|];
      try (split; constructor).
    apply save_loop_trace. }
  destruct Hfiles as [Hfe Hfn].
  destruct (influx_trace argv environ server rows (influxdb_measurement args))
    as (Hie & Hin & Hif).
  destruct files as [trf [[]|e]].
  - rewrite bindM_Return.
    destruct (Influxdb.write_dataframe_to_influxdb _ _ _ _ _ _ _)
      as [tri [b|e]].
    + rewrite bindM_Return. cbn [trace fst ret app].
      exists trf, tri. rewrite app_nil_r. repeat split; auto.
    + rewrite bindM_Raise. cbn [trace fst app].
      exists trf, tri. repeat split; auto.
  - rewrite bindM_Raise. cbn [trace fst app].
    exists trf, []. rewrite app_nil_r. repeat split; auto.
Qed.

(* ================================================================== *)
(** * What a run exports *)

(** X6. A run without a table exports nothing. When the response says
    [success = false], [main] only logs an error and ends normally,
    whatever the data; when a region of the normalized mapping has an empty
    list, the exception of the transform step ends [main] before any event:
    no file, no request, exit status 1. *)
Theorem main_without_table
        (args : Args) (fetched : PriceResponse)
        (fs : file_format -> string -> option exn)
        (argv environ : Influxdb.Params)
        (server : InfluxRequest -> option exn) :
  (success fetched = false ->
   main args fetched fs argv environ server
   = ([Log ERROR "Failed to fetch data"], Return tt))
  /\ (forall k,
         success fetched = true ->
         In (k, []) (upper_keys (data fetched)) ->
         main args fetched fs argv environ server = ([], Raise KeyError)
         /\ exit_status (outcome (main args fetched fs argv environ server))
            = 1).
Proof.
  split.
  - apply main_without_success.
  - intros k Hs Hk.
    assert (E : main args fetched fs argv environ server
                = ([], Raise KeyError)).
    { apply main_transform_raises; [exact Hs|].
      unfold transform, convert_to_dataframe.
      change (data (normalize fetched)) with (upper_keys (data fetched)).
      now rewrite (fill_df_dict_empty_list _ _ _ Hk). }
    rewrite E. split; reflexivity.
Qed.

Lemma main_without_table_witness :
  main (mkArgs "price" (Some ["prices.csv"]))
       (mkPriceResponse true
          [("ee", [mkPricePoint 1700000000 45.2%float]); ("fi", [])])
       (fun _ _ => None) Influxdb.no_params Influxdb.no_params
       (fun _ => None)
  = ([], Raise KeyError).
Proof.
  destruct (main_without_table
              (mkArgs "price" (Some ["prices.csv"]))
              (mkPriceResponse true
                 [("ee", [mkPricePoint 1700000000 45.2%float]); ("fi", [])])
              (fun _ _ => None) Influxdb.no_params Influxdb.no_params
              (fun _ => None)) as [_ H].
  destruct (H "FI") as [E _].
  - reflexivity.
  - simpl. right. left. reflexivity.
  - exact E.
Defined.

(** X7. Both exporters get the same table. In a run on a successful
    response where no output name asks for an Excel file and no file write
    fails, every file written holds exactly the rows returned by the
    transform step, in the format its name asks for, and the request sent
    to the database, if one is sent, carries those of these rows that hold
    a number, under the measurement of the command line, with tag column
    [area] and field column [value]; whatever the database answers. *)
Theorem main_exports_one_table
        (args : Args) (fetched : PriceResponse)
        (fs : file_format -> string -> option exn)
        (argv environ : Influxdb.Params)
        (server : InfluxRequest -> option exn) (rows : list PriceRow) :
  success fetched = true ->
  transform fetched = Return rows ->
  (forall l f fmt,
      output_filename args = Some l -> In f l -> format_of f = Some fmt ->
      fmt <> Excel /\ fs fmt f = None) ->
  Forall (exports rows (influxdb_measurement args))
         (trace (main args fetched fs argv environ server)).
Proof.
  intros Hs Ht _.
  destruct (main_trace args fetched fs argv environ server rows Hs Ht)
    as (files & db & -> & Hf & _ & Hd & _ & _).
  constructor; [exact I|]. apply Forall_app. auto.
Qed.

Lemma main_exports_one_table_witness :
  trace (main (mkArgs "price" (Some ["prices.csv"; "prices.parquet"]))
              (mkPriceResponse true
                 [("ee", [mkPricePoint 1700000000 45.2%float])])
              (fun _ _ => None)
              Influxdb.no_params
              (Influxdb.mkParams (Some "http://localhost:8086")
                                 (Some "token") (Some "org")
                                 (Some "prices"))
              (fun _ => None))
  = [Log INFO "df";
     FileWritten Csv "prices.csv"
       [mkPriceRow (utc 2023 11 14 22 13 20) "EE" (Some 45.2%float)];
     Log INFO "Data saved to CSV file: prices.csv";
     FileWritten Parquet "prices.parquet"
       [mkPriceRow (utc 2023 11 14 22 13 20) "EE" (Some 45.2%float)];
     Log INFO "Data saved to Parquet file: prices.parquet";
     Log INFO "Got InfluxDB parameters";
     Log INFO "Write DataFrame";
     Log DEBUG "df";
     NetworkCall
       (mkInfluxRequest "http://localhost:8086" "token" "org" "prices"
          [mkPriceRow (utc 2023 11 14 22 13 20) "EE" (Some 45.2%float)]
          "price" ["area"] ["value"])]
  /\ Forall (exports
               [mkPriceRow (utc 2023 11 14 22 13 20) "EE" (Some 45.2%float)]
               "price")
            (trace (main (mkArgs "price"
                                 (Some ["prices.csv"; "prices.parquet"]))
                         (mkPriceResponse true
                            [("ee", [mkPricePoint 1700000000 45.2%float])])
                         (fun _ _ => None)
                         Influxdb.no_params
                         (Influxdb.mkParams (Some "http://localhost:8086")
                                            (Some "token") (Some "org")
                                            (Some "prices"))
                         (fun _ => None))).
Proof.
  split; [vm_compute; reflexivity|].
  apply (main_exports_one_table
           (mkArgs "price" (Some ["prices.csv"; "prices.parquet"]))
           (mkPriceResponse true
              [("ee", [mkPricePoint 1700000000 45.2%float])])).
  - reflexivity.
  - vm_compute. reflexivity.
  - intros l f fmt E Hf Hfmt. injection E as <-.
    destruct Hf as [<-|[<-|[]]]; vm_compute in Hfmt; injection Hfmt as <-;
      (split; [discriminate | reflexivity]).
Defined.

(** X8. Files first, then at most one request. The trace of any run splits
    in two parts: the first holds every file write and no request, the
    second holds no file write and at most one request; nothing is sent
    twice. *)
Theorem main_one_request_after_files
        (args : Args) (fetched : PriceResponse)
        (fs : file_format -> string -> option exn)
        (argv environ : Influxdb.Params)
        (server : InfluxRequest -> option exn) :
  exists pre post,
    trace (main args fetched fs argv environ server) = (pre ++ post)%list
    /\ network_calls pre = []
    /\ files_written post = []
    /\ (List.length (network_calls post) <= 1)%nat.
Proof.
  destruct (success fetched) eqn:Hs.
  - destruct (transform fetched) as [rows|e] eqn:Ht.
    + destruct (main_trace args fetched fs argv environ server rows Hs Ht)
        as (files & db & -> & _ & Hfn & _ & Hdn & Hdf).
      exists (Log INFO "df" :: files), db. repeat split; auto.
    + rewrite (main_transform_raises _ _ _ _ _ _ _ Hs Ht).
      exists [], []. repeat split; auto.
  - rewrite (main_without_success _ _ _ _ _ _ Hs).
    exists [Log ERROR "Failed to fetch data"], []. repeat split; auto.
Qed.

Lemma for_each_output_filename fs rows (o : option (list string)) :
  match o with
  | Some (f :: fl) => for_each (save_to_file fs rows) (f :: fl)
  | _ => ret tt
  end
  = for_each (save_to_file fs rows)
             (match o with Some l => l | None => [] end).
Proof.
  destruct o as [[|f fl]|]; reflexivity.
Qed.

Lemma save_loop_failure fs df l1 f l2 fmt e :
  (forall g fmt', In g l1 -> format_of g = Some fmt' -> fs fmt' g = None) ->
  format_of f = Some fmt ->
  fs fmt f = Some e ->
  outcome (for_each (save_to_file fs df) (l1 ++ f :: l2)) = Raise e
  /\ files_written (trace (for_each (save_to_file fs df) (l1 ++ f :: l2)))
     = filter supported l1.
Proof.
  intros Hok Hfmt Hfail. induction l1 as [|g l1 IH].
  - cbn [app for_each filter].
    pose proof (save_to_file_cases fs df f) as Hc.
    rewrite Hfmt, Hfail in Hc. rewrite Hc, bindM_Raise. split; reflexivity.
  - destruct IH as [IHo IHw]; [intros; apply Hok; simpl; auto|].
    cbn [app for_each filter].
    pose proof (save_to_file_cases fs df g) as Hc.
    rewrite (format_of_supported g).
    destruct (format_of g) as [fmt'|] eqn:Eg.
    + rewrite (Hok g fmt') in Hc by (simpl; auto).
      destruct Hc as (msg & ->). rewrite bindM_Return.
      cbn [outcome trace fst snd]. split; [exact IHo|].
      simpl. now rewrite IHw.
    + rewrite Hc, bindM_Return. cbn [outcome trace fst snd].
      split; [exact IHo|]. simpl. exact IHw.
Qed.

(** X9. A failed file write stops the run. When the writing of one of the
    output files raises, the files before it have been written (those with
    a supported extension), the files after it are not, the database is
    not contacted, and the exception ends [main] with exit status 1. *)
Theorem file_write_failure_stops_the_run
        (args : Args) (fetched : PriceResponse)
        (fs : file_format -> string -> option exn)
        (argv environ : Influxdb.Params)
        (server : InfluxRequest -> option exn)
        (rows : list PriceRow) (l1 l2 : list string) (f : string)
        (fmt : file_format) (e : exn) :
  success fetched = true ->
  transform fetched = Return rows ->
  output_filename args = Some (l1 ++ f :: l2)%list ->
  (forall g fmt', In g l1 -> format_of g = Some fmt' -> fs fmt' g = None) ->
  format_of f = Some fmt ->
  fs fmt f = Some e ->
  outcome (main args fetched fs argv environ server) = Raise e
  /\ exit_status (outcome (main args fetched fs argv environ server)) = 1
  /\ files_written (trace (main args fetched fs argv environ server))
     = filter supported l1
  /\ network_calls (trace (main args fetched fs argv environ server)) = [].
Proof.
  intros Hs Ht Ho Hok Hfmt Hfail.
  rewrite (main_with_table _ _ _ _ _ _ _ Hs Ht).
  rewrite for_each_output_filename, Ho.
  destruct (save_loop_failure fs rows l1 f l2 fmt e Hok Hfmt Hfail)
    as [Hlo Hlw].
  destruct (save_loop_trace fs rows (influxdb_measurement args)
                            (l1 ++ f :: l2)) as [_ Hln].
  destruct (for_each (save_to_file fs rows) (l1 ++ f :: l2)) as [tr r].
  cbn [outcome trace fst snd] in Hlo, Hlw, Hln. subst r.
  unfold log. rewrite bindM_Return, bindM_Raise.
  cbn [outcome trace fst snd app]. simpl files_written. simpl network_calls.
  repeat split; auto.
Qed.

Lemma file_write_failure_stops_the_run_witness :
  outcome
    (main (mkArgs "price" (Some ["a.csv"; "b.parquet"; "c.xlsx"]))
          (mkPriceResponse true [("ee", [mkPricePoint 1700000000 45.2%float])])
          (fun fmt _ => match fmt with
                        | Parquet => Some (mkExn "ImportError" ["Exception"] None)
                        | _ => None
                        end)
          Influxdb.no_params
          (Influxdb.mkParams (Some "http://localhost:8086") (Some "token")
                             (Some "org") (Some "prices"))
          (fun _ => None))
  = Raise (mkExn "ImportError" ["Exception"] None)
  /\ files_written
       (trace
          (main (mkArgs "price" (Some ["a.csv"; "b.parquet"; "c.xlsx"]))
                (mkPriceResponse true
                   [("ee", [mkPricePoint 1700000000 45.2%float])])
                (fun fmt _ => match fmt with
                              | Parquet =>
                                  Some (mkExn "ImportError" ["Exception"] None)
                              | _ => None
                              end)
                Influxdb.no_params
                (Influxdb.mkParams (Some "http://localhost:8086") (Some "token")
                                   (Some "org") (Some "prices"))
                (fun _ => None)))
     = ["a.csv"].
Proof.
  destruct (file_write_failure_stops_the_run
              (mkArgs "price" (Some ["a.csv"; "b.parquet"; "c.xlsx"]))
              (mkPriceResponse true
                 [("ee", [mkPricePoint 1700000000 45.2%float])])
              (fun fmt _ => match fmt with
                            | Parquet =>
                                Some (mkExn "ImportError" ["Exception"] None)
                            | _ => None
                            end)
              Influxdb.no_params
              (Influxdb.mkParams (Some "http://localhost:8086") (Some "token")
                                 (Some "org") (Some "prices"))
              (fun _ => None)
              [mkPriceRow (utc 2023 11 14 22 13 20) "EE" (Some 45.2%float)]
              ["a.csv"] ["c.xlsx"] "b.parquet" Parquet
              (mkExn "ImportError" ["Exception"] None))
    as (Ho & _ & Hw & _).
  - reflexivity.
  - vm_compute. reflexivity.
  - reflexivity.
  - intros g fmt' [<-|[]] E. vm_compute in E. injection E as <-. reflexivity.
  - reflexivity.
  - reflexivity.
  - split; [exact Ho | exact Hw].
Defined.

(* ================================================================== *)
(** * More on the database writer *)

Lemma parse_known_args_flags argv environ :
  complete argv = true -> Influxdb.parse_known_args argv environ = argv.
Proof.
  unfold complete. destruct argv as [[u|] [t|] [o|] [b|]]; simpl;
    try discriminate.
  reflexivity.
Qed.

(** X10. Flags come first. Each connection parameter returned by
    [get_influxdb_args] is the value of its flag when the flag is given,
    and the value of its environment variable otherwise; so with the four
    flags given, the environment has no effect on the write step. *)
Theorem connection_parameters_flag_first
        (argv environ : Influxdb.Params) :
  (forall tr url token org bucket,
      Influxdb.get_influxdb_args argv environ
      = (tr, Return (url, token, org, bucket)) ->
      Some url = match Influxdb.influxdb_url argv with
                 | Some v => Some v
                 | None => Influxdb.influxdb_url environ
                 end
      /\ Some token = match Influxdb.influxdb_token argv with
                      | Some v => Some v
                      | None => Influxdb.influxdb_token environ
                      end
      /\ Some org = match Influxdb.influxdb_org argv with
                    | Some v => Some v
                    | None => Influxdb.influxdb_org environ
                    end
      /\ Some bucket = match Influxdb.influxdb_bucket argv with
                       | Some v => Some v
                       | None => Influxdb.influxdb_bucket environ
                       end)
  /\ (complete argv = true ->
      forall environ' server df measurement_name tag_columns field_columns,
        Influxdb.write_dataframe_to_influxdb
          argv environ server df measurement_name tag_columns field_columns
        = Influxdb.write_dataframe_to_influxdb
            argv environ' server df measurement_name tag_columns
            field_columns).
Proof.
  split.
  - intros tr url token org bucket H.
    unfold Influxdb.get_influxdb_args in H.
    change (Influxdb.parse_known_args argv environ)
      with (Influxdb.mkParams
              match Influxdb.influxdb_url argv with
              | Some v => Some v
              | None => Influxdb.influxdb_url environ
              end
              match Influxdb.influxdb_token argv with
              | Some v => Some v
              | None => Influxdb.influxdb_token environ
              end
              match Influxdb.influxdb_org argv with
              | Some v => Some v
              | None => Influxdb.influxdb_org environ
              end
              match Influxdb.influxdb_bucket argv with
              | Some v => Some v
              | None => Influxdb.influxdb_bucket environ
              end) in H.
    destruct (match Influxdb.influxdb_url argv with
              | Some v => Some v
              | None => Influxdb.influxdb_url environ
              end) as [u|];
      destruct (match Influxdb.influxdb_token argv with
                | Some v => Some v
                | None => Influxdb.influxdb_token environ
                end) as [t|];
      destruct (match Influxdb.influxdb_org argv with
                | Some v => Some v
                | None => Influxdb.influxdb_org environ
                end) as [o|];
      destruct (match Influxdb.influxdb_bucket argv with
                | Some v => Some v
                | None => Influxdb.influxdb_bucket environ
                end) as [b|];
      simpl in H; try discriminate.
    injection H as _ <- <- <- <-. auto.
  - intros Hc environ' server df m tags fields.
    unfold Influxdb.write_dataframe_to_influxdb, Influxdb.write_dataframe_body,
      Influxdb.get_influxdb_args.
    now rewrite !(parse_known_args_flags argv) by exact Hc.
Qed.

Lemma connection_parameters_flag_first_witness :
  Influxdb.write_dataframe_to_influxdb
    (Influxdb.mkParams (Some "http://flag:8086") (Some "t") (Some "o")
                       (Some "b"))
    (Influxdb.mkParams (Some "http://env:8086") None None None)
    (fun _ => None) [] "price" ["area"] ["value"]
  = Influxdb.write_dataframe_to_influxdb
      (Influxdb.mkParams (Some "http://flag:8086") (Some "t") (Some "o")
                         (Some "b"))
      Influxdb.no_params
      (fun _ => None) [] "price" ["area"] ["value"].
Proof.
  destruct (connection_parameters_flag_first
              (Influxdb.mkParams (Some "http://flag:8086") (Some "t")
                                 (Some "o") (Some "b"))
              (Influxdb.mkParams (Some "http://env:8086") None None None))
    as [_ H].
  apply H. reflexivity.
Defined.

(** X11. True means nothing was refused. [write_dataframe_to_influxdb]
    returns True exactly when the four connection parameters are present
    and either the table has no point to send, in which case no request
    is made, or the database accepted the one request that carries its
    points. *)
Theorem write_returns_true_iff_accepted
        (argv environ : Influxdb.Params) (server : InfluxRequest -> option exn)
        (df : list PriceRow) (measurement_name : string)
        (tag_columns field_columns : list string) :
  outcome (Influxdb.write_dataframe_to_influxdb
             argv environ server df measurement_name tag_columns field_columns)
  = Return true
  <-> exists url token org bucket,
        Influxdb.parse_known_args argv environ
        = Influxdb.mkParams (Some url) (Some token) (Some org) (Some bucket)
        /\ ((Influxdb.points df = []
             /\ network_calls
                  (trace (Influxdb.write_dataframe_to_influxdb
                            argv environ server df measurement_name
                            tag_columns field_columns))
                = [])
            \/ (Influxdb.points df <> []
                /\ server (mkInfluxRequest url token org bucket
                             (Influxdb.points df) measurement_name
                             tag_columns field_columns) = None
                /\ network_calls
                     (trace (Influxdb.write_dataframe_to_influxdb
                               argv environ server df measurement_name
                               tag_columns field_columns))
                   = [mkInfluxRequest url token org bucket
                        (Influxdb.points df) measurement_name
                        tag_columns field_columns])).
Proof.
  split.
  - intros H.
    destruct (missing (Influxdb.parse_known_args argv environ)) eqn:Em.
    + rewrite (write_dataframe_missing _ _ _ _ _ _ _ Em) in H. discriminate.
    + destruct (complete_inv _ Em) as (url & token & org & bucket & Hp).
      exists url, token, org, bucket. split; [exact Hp|].
      destruct (write_dataframe_complete
                  _ _ server df measurement_name tag_columns field_columns
                  _ _ _ _ Hp) as (msgs & E & Hn & _ & _).
      rewrite E in H |- *. cbn [outcome snd trace fst] in *.
      rewrite !network_calls_app, Hn.
      destruct (Influxdb.points df) as [|p ps] eqn:Ep.
      * left. split; reflexivity.
      * right. split; [discriminate|].
        destruct (server _) as [e|].
        -- destruct (handled e); discriminate.
        -- split; reflexivity.
  - intros (url & token & org & bucket & Hp & Hc).
    destruct (write_dataframe_complete
                _ _ server df measurement_name tag_columns field_columns
                _ _ _ _ Hp) as (msgs & E & _).
    rewrite E. cbn [outcome snd].
    destruct Hc as [[Hc _]|(Hc & Hs & _)].
    + now rewrite Hc.
    + rewrite Hs. now destruct (Influxdb.points df).
Qed.

(* ================================================================== *)
(** * The time window of the command line *)

Lemma replace_22_time_of_day now k :
  (Datetime.replace_22 now + k * 86400) mod 86400 = 79200.
Proof.
  unfold Datetime.replace_22.
  replace (now / 86400 * 86400 + 79200 + k * 86400)
    with (79200 + (now / 86400 + k) * 86400) by ring.
  rewrite Z.mod_add by lia. reflexivity.
Qed.

Lemma replace_22_same_day now :
  Datetime.replace_22 now / 86400 = now / 86400.
Proof.
  unfold Datetime.replace_22.
  replace (now / 86400 * 86400 + 79200)
    with (79200 + now / 86400 * 86400) by ring.
  rewrite Z.div_add by lia. reflexivity.
Qed.

(** The text of an instant at 22:00:00: ten characters of date, then the
    time of day. *)
Lemma strftime_at_22 t :
  t mod 86400 = 79200 ->
  Datetime.strftime t
  = String.substring 0 10 (Datetime.strftime t) ++ "T22:00:00Z".
Proof.
  intros H. unfold Datetime.strftime, civil_of_timestamp. cbn [ns].
  rewrite Z.div_mul by lia. rewrite H.
  destruct (civil_from_days (t / 86400)) as [[y m] d].
  cbn [year month day hour minute second].
  reflexivity.
Qed.

Lemma strftime_time_22 t :
  t mod 86400 = 79200 ->
  String.substring 10 10 (Datetime.strftime t) = "T22:00:00Z".
Proof.
  intros H. unfold Datetime.strftime, civil_of_timestamp. cbn [ns].
  rewrite Z.div_mul by lia. rewrite H.
  destruct (civil_from_days (t / 86400)) as [[y m] d].
  cbn [year month day hour minute second].
  reflexivity.
Qed.

Lemma strftime_date t t' :
  t / 86400 = t' / 86400 ->
  String.substring 0 10 (Datetime.strftime t)
  = String.substring 0 10 (Datetime.strftime t').
Proof.
  intros H. unfold Datetime.strftime, civil_of_timestamp. cbn [ns].
  rewrite !Z.div_mul by lia. rewrite H.
  destruct (civil_from_days (t' / 86400)) as [[y m] d].
  reflexivity.
Qed.

(** X12. A shortcut wins over [--end-time], and an empty bound counts as
    none. For a command line that the parser accepts (at most one of
    [--start-time], [--today] and [--tomorrow]) and a clock in range: with
    [--today] or [--tomorrow], the result of [parse_args] does not depend
    on what [--end-time] holds, which is silently replaced; without a
    shortcut, an empty [--start-time] gives what no [--start-time] gives;
    and an empty [--end-time] always gives what no [--end-time] gives. *)
Theorem parse_args_ignored_bounds
        (now : Z) (fromisoformat : string -> bool)
        (s : option string) (tomorrow today : bool) (e e' : option string)
        (a : Args) :
  clock_in_range now ->
  exclusive (Cli.mkNamespace s tomorrow today e a) = true ->
  (tomorrow || today = true ->
   Cli.parse_args now fromisoformat (Cli.mkNamespace s tomorrow today e a)
   = Cli.parse_args now fromisoformat (Cli.mkNamespace s tomorrow today e' a))
  /\ (s = Some "" ->
      Cli.parse_args now fromisoformat (Cli.mkNamespace s tomorrow today e a)
      = Cli.parse_args now fromisoformat
          (Cli.mkNamespace None tomorrow today e a))
  /\ Cli.parse_args now fromisoformat
       (Cli.mkNamespace s tomorrow today (Some "") a)
     = Cli.parse_args now fromisoformat
         (Cli.mkNamespace s tomorrow today None a).
Proof.
  intros _ Hx. split; [|split].
  - intros H. unfold Cli.parse_args. cbn [Cli.tomorrow Cli.today].
    destruct tomorrow; [reflexivity|].
    destruct today; [reflexivity | discriminate].
  - intros ->. unfold Cli.parse_args.
    cbn [Cli.tomorrow Cli.today Cli.start_time].
    destruct tomorrow; [reflexivity|]. destruct today; reflexivity.
  - unfold Cli.parse_args.
    cbn [Cli.tomorrow Cli.today Cli.start_time Cli.end_time].
    destruct tomorrow; [reflexivity|]. destruct today; [reflexivity|].
    destruct s as [[|c s]|];
      cbn [Cli.tomorrow Cli.today Cli.start_time Cli.end_time Cli.falsy
           andb negb];
      reflexivity.
Qed.

Lemma parse_args_ignored_bounds_witness :
  clock_in_range 1700000000
  /\ exclusive (Cli.mkNamespace None false true (Some "2030-01-01T00:00:00Z")
                                (mkArgs "price" None)) = true
  /\ Cli.parse_args 1700000000 (fun _ => true)
       (Cli.mkNamespace None false true (Some "2030-01-01T00:00:00Z")
                        (mkArgs "price" None))
     = Cli.parse_args 1700000000 (fun _ => true)
         (Cli.mkNamespace None false true None (mkArgs "price" None)).
Proof.
  assert (Hc : clock_in_range 1700000000) by (unfold clock_in_range; lia).
  split; [exact Hc|]. split; [reflexivity|].
  destruct (parse_args_ignored_bounds
              1700000000 (fun _ => true) None false true
              (Some "2030-01-01T00:00:00Z") None (mkArgs "price" None)
              Hc eq_refl)
    as [H _].
  apply H. reflexivity.
Defined.

(** X13. Generated bounds are at 22:00:00 UTC. Whenever [parse_args]
    fills a bound itself, the text it produces is a date followed by
    [T22:00:00Z]; with [--today] the window ends on the UTC date of the
    clock, with [--tomorrow] it starts on it, and in both cases it is one
    day long. *)
Theorem parse_args_window_at_22
        (now : Z) (fromisoformat : string -> bool)
        (args result : Cli.Namespace) :
  clock_in_range now ->
  Cli.parse_args now fromisoformat args = Return result ->
  let today_22 :=
    String.substring 0 10 (Datetime.strftime now) ++ "T22:00:00Z" in
  (Cli.tomorrow args || Cli.today args || Cli.falsy (Cli.start_time args)
   = true ->
   exists s, Cli.start_time result = Some s
             /\ String.substring 10 10 s = "T22:00:00Z")
  /\ (Cli.tomorrow args || Cli.today args || Cli.falsy (Cli.end_time args)
      = true ->
      exists e, Cli.end_time result = Some e
                /\ String.substring 10 10 e = "T22:00:00Z")
  /\ (Cli.tomorrow args = true ->
      Cli.start_time result = Some today_22
      /\ Cli.end_time result
         = Some (Datetime.strftime (Datetime.replace_22 now + 86400)))
  /\ (Cli.tomorrow args = false -> Cli.today args = true ->
      Cli.end_time result = Some today_22
      /\ Cli.start_time result
         = Some (Datetime.strftime (Datetime.replace_22 now - 86400))).
Proof.
  intros _ H today_22.
  assert (T : forall k,
             String.substring 10 10
               (Datetime.strftime (Datetime.replace_22 now + k * 86400))
             = "T22:00:00Z").
  { intros k. apply strftime_time_22. apply replace_22_time_of_day. }
  assert (D : Datetime.strftime (Datetime.replace_22 now) = today_22).
  { unfold today_22.
    rewrite (strftime_at_22 (Datetime.replace_22 now)) at 1
      by (rewrite <- (Z.add_0_r (Datetime.replace_22 now));
          apply (replace_22_time_of_day now 0)).
    f_equal. apply strftime_date. apply replace_22_same_day. }
  unfold Cli.parse_args in H. unfold Datetime.days in H.
  destruct args as [s tm td e a]. cbn [Cli.tomorrow Cli.today
    Cli.start_time Cli.end_time Cli.export_args] in *.
  replace (Datetime.replace_22 now - 3 * 86400)
    with (Datetime.replace_22 now + (-3) * 86400) in H by ring.
  replace (Datetime.replace_22 now - 1 * 86400)
    with (Datetime.replace_22 now + (-1) * 86400) in H by ring.
  pose proof (T 1) as T1. pose proof (T (-1)) as Tm1.
  pose proof (T (-3)) as Tm3. pose proof (T 0) as T0.
  rewrite Z.mul_0_l, Z.add_0_r in T0.
  assert (Fin : forall r s0 e0,
             Return (Cli.mkNamespace (Some s0) tm td (Some e0) a) = Return r ->
             Cli.start_time r = Some s0 /\ Cli.end_time r = Some e0).
  { intros r s0 e0 E. injection E as <-. split; reflexivity. }
  destruct tm.
  - cbn [Cli.tomorrow Cli.today Cli.start_time Cli.end_time Cli.falsy
         andb negb] in H.
    rewrite ?andb_false_r in H.
    cbn [Cli.tomorrow Cli.today Cli.start_time Cli.end_time Cli.falsy
         andb negb] in H.
    destruct (fromisoformat _); [|discriminate].
    destruct (fromisoformat _); [|discriminate].
    apply Fin in H. destruct H as [-> ->].
    repeat split; intros; try discriminate; eauto;
      try (now rewrite D); try (do 2 f_equal; ring).
  - destruct td.
    + cbn [Cli.tomorrow Cli.today Cli.start_time Cli.end_time Cli.falsy
           andb negb] in H.
      rewrite ?andb_false_r in H.
      cbn [Cli.tomorrow Cli.today Cli.start_time Cli.end_time Cli.falsy
           andb negb] in H.
      destruct (fromisoformat _); [|discriminate].
      destruct (fromisoformat _); [|discriminate].
      apply Fin in H. destruct H as [-> ->].
      repeat split; intros; try discriminate; eauto;
        try (now rewrite D); try (do 2 f_equal; ring).
    + cbn [orb]. destruct (Cli.falsy s) eqn:Fs.
      * cbn [Cli.tomorrow Cli.today Cli.start_time Cli.end_time] in H.
        destruct (Cli.falsy e) eqn:Fe.
        -- cbn [andb negb Cli.tomorrow Cli.today Cli.start_time Cli.end_time]
             in H.
           destruct (fromisoformat _); [|discriminate].
           destruct (fromisoformat _); [|discriminate].
           apply Fin in H. destruct H as [-> ->].
           repeat split; intros; try discriminate; eauto.
        -- cbn [andb negb Cli.tomorrow Cli.today Cli.start_time Cli.end_time]
             in H.
           destruct e as [e|]; [|discriminate].
           destruct (fromisoformat _); [|discriminate].
           destruct (fromisoformat _); [|discriminate].
           apply Fin in H. destruct H as [-> ->].
           repeat split; intros; try discriminate; eauto.
      * cbn [Cli.tomorrow Cli.today Cli.start_time Cli.end_time] in H.
        destruct (Cli.falsy e) eqn:Fe.
        -- cbn [andb negb Cli.tomorrow Cli.today Cli.start_time Cli.end_time]
             in H.
           destruct s as [s|]; [|discriminate].
           destruct (fromisoformat _); [|discriminate].
           destruct (fromisoformat _); [|discriminate].
           apply Fin in H. destruct H as [-> ->].
           repeat split; intros; try discriminate; eauto.
        -- repeat split; intros; discriminate.
Qed.

Lemma parse_args_window_at_22_witness :
  clock_in_range 1700000000
  /\ Cli.parse_args 1700000000 (fun _ => true)
       (Cli.mkNamespace None false true None (mkArgs "price" None))
     = Return (Cli.mkNamespace (Some "2023-11-13T22:00:00Z") false true
                               (Some "2023-11-14T22:00:00Z")
                               (mkArgs "price" None))
  /\ (exists e, Some "2023-11-14T22:00:00Z" = Some e
                /\ String.substring 10 10 e = "T22:00:00Z").
Proof.
  assert (Hc : clock_in_range 1700000000) by (unfold clock_in_range; lia).
  assert (Hp : Cli.parse_args 1700000000 (fun _ => true)
                 (Cli.mkNamespace None false true None (mkArgs "price" None))
               = Return (Cli.mkNamespace (Some "2023-11-13T22:00:00Z") false
                                         true (Some "2023-11-14T22:00:00Z")
                                         (mkArgs "price" None)))
    by (vm_compute; reflexivity).
  split; [exact Hc|]. split; [exact Hp|].
  destruct (parse_args_window_at_22 _ _ _ _ Hc Hp) as (_ & He & _ & _).
  apply He. reflexivity.
Defined.

(* ================================================================== *)
(** * The extension of a file name *)

Lemma substring_all (s : string) : String.substring 0 (String.length s) s = s.
Proof.
  induction s as [|c s IH]; simpl; [reflexivity | now rewrite IH].
Qed.

Lemma substring_split (p : string) (n : nat) :
  String.substring 0 n p ++ String.substring n (String.length p - n) p = p.
Proof.
  revert n. induction p as [|c p IH]; intros n.
  - destruct n; reflexivity.
  - destruct n as [|n].
    + cbn [String.substring String.length Nat.sub append].
      now rewrite substring_all.
    + cbn [String.substring String.length Nat.sub append].
      now rewrite IH.
Qed.

(** X14. The extension is a suffix. The root and the extension that
    [save_to_file] gets from [os.path.splitext] join back into the file
    name, so the extension it tests is always the end of the name; a name
    split with an empty extension is never written. *)
Theorem splitext_joins_back (filename : string) :
  fst (splitext filename) ++ snd (splitext filename) = filename
  /\ (snd (splitext filename) = "" ->
      forall fs df,
        save_to_file fs df filename
        = ([Log WARNING (skip_warning filename)], Return tt)).
Proof.
  split.
  - unfold splitext.
    destruct (_ && _); cbn [fst snd].
    + apply substring_split.
    + clear. induction filename as [|c s IH]; simpl; congruence.
  - intros E fs df. apply save_to_file_unsupported.
    unfold supported. rewrite E. reflexivity.
Qed.

(* ================================================================== *)
(** * How the two parsers end *)


(** X16. Once the parser has accepted the command line (at most one of
    [--start-time], [--today] and [--tomorrow], otherwise the program has
    already exited with status 2) and with a clock in range, [parse_args]
    ends in one of two ways: it returns the namespace with both bounds of
    the window set to texts that [fromisoformat] accepts (with Z read as
    +00:00), the other arguments untouched, or it raises [ValueError]; no
    bound is ever left unset. *)
Theorem parse_args_outcomes
        (now : Z) (fromisoformat : string -> bool) (args : Cli.Namespace) :
  clock_in_range now ->
  exclusive args = true ->
  (exists s e,
      Cli.parse_args now fromisoformat args
      = Return (Cli.mkNamespace (Some s) (Cli.tomorrow args) (Cli.today args)
                                (Some e) (Cli.export_args args))
      /\ fromisoformat (Datetime.replace_Z s) = true
      /\ fromisoformat (Datetime.replace_Z e) = true)
  \/ Cli.parse_args now fromisoformat args = Raise ValueError.
Proof.
  intros _ _.
  assert (V : forall s e,
             (exists s0 e0,
                 (if fromisoformat (Datetime.replace_Z s)
                  then if fromisoformat (Datetime.replace_Z e)
                       then Return (Cli.mkNamespace (Some s) (Cli.tomorrow args)
                                      (Cli.today args) (Some e)
                                      (Cli.export_args args))
                       else Raise ValueError
                  else Raise ValueError)
                 = Return (Cli.mkNamespace (Some s0) (Cli.tomorrow args)
                             (Cli.today args) (Some e0) (Cli.export_args args))
                 /\ fromisoformat (Datetime.replace_Z s0) = true
                 /\ fromisoformat (Datetime.replace_Z e0) = true)
             \/ (if fromisoformat (Datetime.replace_Z s)
                 then if fromisoformat (Datetime.replace_Z e)
                      then Return (Cli.mkNamespace (Some s) (Cli.tomorrow args)
                                     (Cli.today args) (Some e)
                                     (Cli.export_args args))
                      else Raise ValueError
                 else Raise ValueError)
                = Raise ValueError).
  { intros s e.
    destruct (fromisoformat (Datetime.replace_Z s)) eqn:Es; [|now right].
    destruct (fromisoformat (Datetime.replace_Z e)) eqn:Ee; [|now right].
    left. exists s, e. auto. }
  unfold Cli.parse_args.
  destruct args as [s tm td e a].
  cbn [Cli.tomorrow Cli.today Cli.start_time Cli.end_time Cli.export_args] in *.
  destruct tm.
  { cbn [Cli.tomorrow Cli.today Cli.start_time Cli.end_time Cli.export_args
         Cli.falsy andb negb].
    rewrite ?andb_false_r.
    cbn [Cli.tomorrow Cli.today Cli.start_time Cli.end_time Cli.export_args
         Cli.falsy andb negb].
    apply V. }
  destruct td.
  { cbn [Cli.tomorrow Cli.today Cli.start_time Cli.end_time Cli.export_args
         Cli.falsy andb negb].
    apply V. }
  destruct s as [[|c s]|]; destruct e as [[|c' e]|];
    cbn [Cli.tomorrow Cli.today Cli.start_time Cli.end_time Cli.export_args
         Cli.falsy andb negb];
    apply V.
Qed.

Lemma parse_args_outcomes_witness :
  clock_in_range 1700000000
  /\ Cli.parse_args 1700000000
       (fun s => String.eqb (String.substring 19 6 s) "+00:00")
       (Cli.mkNamespace (Some "2023-11-01") false false None
                        (mkArgs "price" None))
     = Raise ValueError
  /\ ((exists s e,
          Cli.parse_args 1700000000 (fun _ => true)
            (Cli.mkNamespace None false false None (mkArgs "price" None))
          = Return (Cli.mkNamespace (Some s) false false (Some e)
                                    (mkArgs "price" None))
          /\ true = true /\ true = true)
      \/ Cli.parse_args 1700000000 (fun _ => true)
           (Cli.mkNamespace None false false None (mkArgs "price" None))
         = Raise ValueError).
Proof.
  assert (Hc : clock_in_range 1700000000) by (unfold clock_in_range; lia).
  split; [exact Hc|]. split; [vm_compute; reflexivity|].
  exact (parse_args_outcomes
           1700000000 (fun _ => true)
           (Cli.mkNamespace None false false None (mkArgs "price" None))
           Hc eq_refl).
Defined.

